(** * Verification of the tide scraper [tides.py]

    A shallow embedding of the [ScrapeTides] class: every method that
    works on the parsed page is translated to a function over a small
    model of the BeautifulSoup tree.  Python exceptions are values of
    an error monad, a Python [None] is an [option], the insertion
    ordered [dict] is an association list with unique keys. *)

From Stdlib Require Import Ascii String ZArith QArith Lia.
From stdpp Require Import base option list strings gmap.

Close Scope Q_scope.

Set Default Proof Using "Type".

(** ** Exceptions and the error monad *)

Inductive exn : Set :=
  | IndexError
  | KeyError
  | TypeError
  | AttributeError
  | ValueError.

Inductive result (A : Type) : Type :=
  | Ok (a : A)
  | Raise (e : exn).
Arguments Ok {A} a.
Arguments Raise {A} e.

#[global] Instance exn_eq_dec : EqDecision exn.
Proof. solve_decision. Defined.

#[global] Instance result_ret : MRet result := λ A a, Ok a.
#[global] Instance result_bind : MBind result := λ A B f m,
  match m with
  | Ok a => f a
  | Raise e => Raise e
  end.
#[global] Instance result_fmap : FMap result := λ A B f m,
  match m with
  | Ok a => Ok (f a)
  | Raise e => Raise e
  end.

(** [o or raise e]: the value of a lookup that raises [e] when it fails. *)
Definition or_raise {A} (o : option A) (e : exn) : result A :=
  match o with
  | Some a => Ok a
  | None => Raise e
  end.

(** The loop [for x in l: acc = body(acc, x)] where the body may raise. *)
Fixpoint for_each {A S} (body : S → A → result S) (l : list A) (acc : S)
  : result S :=
  match l with
  | [] => Ok acc
  | x :: l' => acc' ← body acc x; for_each body l' acc'
  end.

(** The comprehension [[f(x) for x in l]] where [f] may raise. *)
Fixpoint comprehension {A B} (f : A → result B) (l : list A)
  : result (list B) :=
  match l with
  | [] => Ok []
  | x :: l' => y ← f x; ys ← comprehension f l'; Ok (y :: ys)
  end.

(** ** Python strings

    A [str] is modelled by [string]: a sequence of code points below 256. *)

Module PyStr.

(** [str.isspace] on the code points below 256. *)
Definition is_space (c : ascii) : bool :=
  let n := nat_of_ascii c in
  ((9 <=? n) && (n <=? 13)) || ((28 <=? n) && (n <=? 32))
  || (n =? 133) || (n =? 160).

Fixpoint lstrip (s : string) : string :=
  match s with
  | EmptyString => EmptyString
  | String c s' => if is_space c then lstrip s' else s
  end.

Fixpoint rstrip (s : string) : string :=
  match s with
  | EmptyString => EmptyString
  | String c s' =>
      match rstrip s' with
      | EmptyString => if is_space c then EmptyString else String c EmptyString
      | r => String c r
      end
  end.

(** [s.strip()] *)
Definition strip (s : string) : string := rstrip (lstrip s).

(** [s.split(sep)] for a one-character separator. *)
Fixpoint split (sep : ascii) (s : string) : list string :=
  match s with
  | EmptyString => [EmptyString]
  | String c s' =>
      if Ascii.eqb c sep then EmptyString :: split sep s'
      else match split sep s' with
           | p :: ps => String c p :: ps
           | [] => [String c EmptyString]
           end
  end.

(** [s[-2:]] *)
Definition last_two (s : string) : string :=
  String.substring (String.length s - 2) 2 s.

(** [sub in s] *)
Fixpoint contains (sub s : string) : bool :=
  String.prefix sub s ||
  match s with
  | EmptyString => false
  | String _ s' => contains sub s'
  end.

(** [c in s] for a character. *)
Fixpoint has_char (c : ascii) (s : string) : bool :=
  match s with
  | EmptyString => false
  | String c' s' => Ascii.eqb c' c || has_char c s'
  end.

Definition is_digit (c : ascii) : bool :=
  let n := nat_of_ascii c in (48 <=? n) && (n <=? 57).

End PyStr.

(** ** The time and date normaliser *)

(** [force_hour_two_digits], with its inner [fix_hour]; the tuple
    unpacking raises [ValueError] unless [split] gives two parts. *)
Definition fix_hour (hr : string) : string :=
  if decide (PyStr.last_two hr = "00") then "12" else PyStr.last_two hr.

Definition force_hour_two_digits (time_str : string) : result string :=
  match PyStr.split ":" ("0" +:+ PyStr.strip time_str) with
  | [left_part; right_part] => Ok (fix_hour left_part +:+ ":" +:+ right_part)
  | _ => Raise ValueError
  end.

(** ** Times of day and calendar dates

    [datetime.time] and [datetime.date] with the fields and the
    comparison of the standard library. *)

Record time : Set := Time {
  hour : N;
  minute : N;
  second : N;
  microsecond : N
}.

Record date : Set := Date {
  year : N;
  month : N;
  day : N
}.

#[global] Instance time_eq_dec : EqDecision time.
Proof. solve_decision. Defined.
#[global] Instance date_eq_dec : EqDecision date.
Proof. solve_decision. Defined.

(** [time] objects compare as the tuples (hour, minute, second, microsecond). *)
Definition time_cmp (a b : time) : comparison :=
  match (hour a ?= hour b)%N with
  | Eq => match (minute a ?= minute b)%N with
          | Eq => match (second a ?= second b)%N with
                  | Eq => (microsecond a ?= microsecond b)%N
                  | c => c
                  end
          | c => c
          end
  | c => c
  end.

Definition time_le (a b : time) : bool :=
  match time_cmp a b with
  | Gt => false
  | _ => true
  end.

Definition valid_time (t : time) : Prop :=
  (hour t < 24 ∧ minute t < 60 ∧ second t < 60 ∧ microsecond t < 1000000)%N.

(** Microseconds since midnight. *)
Definition to_micros (t : time) : N :=
  (((hour t * 60 + minute t) * 60 + second t) * 1000000 + microsecond t)%N.

Definition one_minute : N := 60000000.

(** [a <= b] where either side may be [None], which raises [TypeError]. *)
Definition py_le (a b : option time) : result bool :=
  match a, b with
  | Some x, Some y => Ok (time_le x y)
  | _, _ => Raise TypeError
  end.

Definition MAXYEAR : N := 9999.

Definition is_leap (y : N) : bool :=
  ((y mod 4 =? 0) && (negb (y mod 100 =? 0) || (y mod 400 =? 0)))%N.

Definition days_in_month (y m : N) : N :=
  match m with
  | 2 => if is_leap y then 29 else 28
  | 4 | 6 | 9 | 11 => 30
  | _ => 31
  end%N.

Definition valid_date (d : date) : bool :=
  ((1 <=? year d) && (year d <=? MAXYEAR) &&
   (1 <=? month d) && (month d <=? 12) &&
   (1 <=? day d) && (day d <=? days_in_month (year d) (month d)))%N.

(** [d.replace(year=y)]: the constructor checks the new date. *)
Definition replace_year (d : date) (y : N) : result date :=
  let d' := Date y (month d) (day d) in
  if valid_date d' then Ok d' else Raise ValueError.

(** [try: ... except ValueError: return None] *)
Definition except_ValueError {A} (m : result A) : result (option A) :=
  match m with
  | Ok a => Ok (Some a)
  | Raise ValueError => Ok None
  | Raise e => Raise e
  end.

(** [adjust_year]; [today] is the value of [date.today()]. *)
Definition adjust_year (today date_obj : date) : result date :=
  if (month today =? 12)%N then
    if (month date_obj =? 1)%N then replace_year date_obj (year today + 1)
    else replace_year date_obj (year today)
  else replace_year date_obj (year today).


(** ** Dictionaries

    A Python [dict] keeps its keys in insertion order, and the daylight
    filter pairs the entries with the sun windows by position: a [dict]
    is a list of pairs with unique keys. *)

Section Dict.
Context {K V : Type} `{EqDecision K}.

(** [d.get(k)] *)
Fixpoint dict_get (d : list (K * V)) (k : K) : option V :=
  match d with
  | [] => None
  | (k', v) :: d' => if decide (k' = k) then Some v else dict_get d' k
  end.

(** [d[k] = v]: a present key keeps its place, a new key goes last. *)
Fixpoint dict_set (d : list (K * V)) (k : K) (v : V) : list (K * V) :=
  match d with
  | [] => [(k, v)]
  | (k', v') :: d' =>
      if decide (k' = k) then (k', v) :: d' else (k', v') :: dict_set d' k v
  end.

End Dict.

(** The value of [d[k]] in a [defaultdict(list)]. *)
Definition getitem {K A : Type} `{EqDecision K}
    (d : list (K * list A)) (k : K) : list A :=
  default [] (dict_get d k).

(** [d[k].extend(data)] in a [defaultdict(list)]: the key is created by
    the read of [d[k]] when it is missing. *)
Definition dict_extend {K A : Type} `{EqDecision K}
    (d : list (K * list A)) (k : K) (data : list A) : list (K * list A) :=
  dict_set d k (getitem d k ++ data).

(** [if data: d[k].extend(data)] *)
Definition extend_if_data {K A : Type} `{EqDecision K}
    (d : list (K * list A)) (k : K) (data : list A) : list (K * list A) :=
  match data with
  | [] => d
  | _ => dict_extend d k data
  end.

(** ** The parsed page

    The BeautifulSoup tree: a node is a string or a tag with its
    attribute dictionary and its children.  The parser stores the
    value of [class] as the list of the class names. *)

Inductive attr_value : Type :=
  | AttrStr (s : string)
  | AttrList (l : list string).

#[local] Set Warnings "-register-all".
Inductive node : Type :=
  | NavigableString (s : string)
  | Tag (name : string) (attrs : gmap string attr_value) (contents : list node).

Module Soup.

(** [tag.descendants]: every node below, in document order. *)
Fixpoint descendants (n : node) : list node :=
  match n with
  | NavigableString _ => []
  | Tag _ _ cs => flat_map (λ c, c :: descendants c) cs
  end.

(** [tag.text]: the strings below, joined. *)
Fixpoint text (n : node) : string :=
  match n with
  | NavigableString s => s
  | Tag _ _ cs => String.concat "" (map text cs)
  end.

(** [tag.attrs.get(k)] *)
Definition attr (n : node) (k : string) : option attr_value :=
  match n with
  | NavigableString _ => None
  | Tag _ a _ => a !! k
  end.

Definition name_is (nm : string) (n : node) : bool :=
  match n with
  | NavigableString _ => false
  | Tag nm' _ _ => bool_decide (nm' = nm)
  end.

(** The match of [attrs={'class': cls}]: one of the class names is [cls],
    or the whole value is. *)
Definition class_matches (cls : string) (v : attr_value) : bool :=
  match v with
  | AttrStr s => bool_decide (s = cls)
  | AttrList l =>
      bool_decide (cls ∈ l) || bool_decide (String.concat " " l = cls)
  end.

Definition has_class (cls : string) (n : node) : bool :=
  match attr n "class" with
  | Some v => class_matches cls v
  | None => false
  end.

Definition selects (nm : string) (cls : option string) (n : node) : bool :=
  name_is nm n &&
  match cls with
  | Some c => has_class c n
  | None => true
  end.

(** [tag.find_all(nm)] and [tag.find_all(nm, attrs={'class': c})] *)
Definition find_all (nm : string) (cls : option string) (n : node)
  : list node :=
  List.filter (selects nm cls) (descendants n).

(** [tag.find(nm, ...)]: the first match or [None]. *)
Definition find (nm : string) (cls : option string) (n : node) : option node :=
  head (find_all nm cls n).

(** [s in v] for an attribute value: an element of the list, or a
    substring of the string. *)
Definition py_in (s : string) (v : attr_value) : bool :=
  match v with
  | AttrStr t => PyStr.contains s t
  | AttrList l => bool_decide (s ∈ l)
  end.

End Soup.

(** ** The scraper *)

(** A sun window: the list [[sunrise, sunset]] of one day. *)
Abbreviation sun_window := (list (option time)) (only parsing).

Record sun_state : Type := SunState {
  times_ : list sun_window;
  sunrise : option time;
  sunset : option time
}.

Section Scraper.

(** The library parsers, [None] where they raise [ValueError]:
    [datetime.strptime(s, TIME_FORMAT).time()],
    [datetime.strptime(s, DATE_FORMAT).date()], [float(s)],
    [date.fromisoformat(s)] and [int(s)]. *)
Variable strptime_time : string → option time.
Variable strptime_date : string → option date.
Variable height : Type.
Variable py_float : string → option height.
Variable fromisoformat : string → option date.
Variable py_int : string → option Z.

Definition parse_time_str (time_str : string) : result (option time) :=
  except_ValueError
    (s ← force_hour_two_digits time_str;
     or_raise (strptime_time s) ValueError).

Definition parse_date_str (today : date) (date_str : string)
  : result (option date) :=
  except_ValueError
    (d ← or_raise (strptime_date date_str) ValueError;
     adjust_year today d).

(** A tide reading: the row [(time, height, units)]. *)
Definition reading : Type := option time * height * string.

Fixpoint has_tide_info_loop (tide_type : string) (tds : list node)
  : result bool :=
  match tds with
  | [] => Ok false
  | td :: tds' =>
      cls ← or_raise (Soup.attr td "class") KeyError;
      if Soup.py_in ("tide-table__part--" +:+ tide_type) cls then Ok true
      else has_tide_info_loop tide_type tds'
  end.

Definition has_tide_info (tr : node) (tide_type : string) : result bool :=
  has_tide_info_loop tide_type (Soup.find_all "td" None tr).

Definition get_value_height_unit (container : node)
  : option node * option node * option node :=
  (Soup.find "span" (Some "tide-table__value-low") container,
   Soup.find "span" (Some "tide-table__height") container,
   Soup.find "span" (Some "tide-table__units") container).

(** The tuple [(parse_time_str(value.text), float(height.text), units.text)]. *)
Definition make_row (value height_ units : node) : result reading :=
  t ← parse_time_str (Soup.text value);
  h ← or_raise (py_float (Soup.text height_)) ValueError;
  Ok (t, h, Soup.text units).

(** The body shared by the two branches of [get_data]: append the row of
    [container] when its three spans are there. *)
Definition append_row (data : list reading) (container : node)
  : result (list reading) :=
  match get_value_height_unit container with
  | (Some value, Some height_, Some units) =>
      row ← make_row value height_ units; Ok (data ++ [row])
  | _ => Ok data
  end.

Definition get_data (td : node) : result (list reading) :=
  let divs := Soup.find_all "div" None td in
  if length divs =? 1 then append_row [] td
  else if length divs =? 2 then for_each append_row divs []
  else Ok [].

(** [for _ in range(0, cols)]: [n] is the number of turns left. *)
Fixpoint cols_loop (n : nat) (tds : list node) (dt : date)
    (tides : list (date * list reading)) (td_index : nat)
  : result (list (date * list reading) * nat) :=
  match n with
  | 0 => Ok (tides, td_index)
  | S n' =>
      td ← or_raise (tds !! td_index) IndexError;
      data ← get_data td;
      cols_loop n' tds dt (extend_if_data tides dt data) (S td_index)
  end.

(** The [while True] loop over one row.  [days] is
    [dates_from_table[day:]]: [dates_from_table[day]] is its head, which
    raises [IndexError] when there is none, and [day += 1] drops it. *)
Fixpoint row_loop (days : list (date * Z)) (tds : list node)
    (td_index : nat) (tides : list (date * list reading))
  : result (list (date * list reading)) :=
  if decide (length tds ≤ td_index) then Ok tides
  else
    td ← or_raise (tds !! td_index) IndexError;
    match days with
    | [] => Raise IndexError
    | (dt, cols) :: days' =>
        if (cols =? 0)%Z then
          data ← get_data td;
          row_loop days' tds (S td_index) (dict_set tides dt data)
        else
          '(tides', td_index') ←
            cols_loop (Z.to_nat cols) tds dt tides td_index;
          row_loop days' tds td_index' tides'
    end.

(** The [for tr in trs] loop of [get_tides]; running off its end
    returns [None]. *)
Fixpoint rows_loop (trs : list node) (dates_from_table : list (date * Z))
    (tides : list (date * list reading))
  : result (option (list (date * list reading))) :=
  match trs with
  | [] => Ok None
  | tr :: trs' =>
      low ← has_tide_info tr "low";
      if negb low then rows_loop trs' dates_from_table tides
      else
        Some <$> row_loop dates_from_table (Soup.find_all "td" None tr) 0 tides
  end.

Definition get_tides (table : node) (dates_from_table : list (date * Z))
  : result (option (list (date * list reading))) :=
  rows_loop (Soup.find_all "tr" (Some "tide-table__separator") table)
    dates_from_table [].

(** [parse_time_str(td.find('div').text.strip())]; [td.find] gives
    [None] when the cell has no [div], and [None.text] raises. *)
Definition first_div_time (td : node) : result (option time) :=
  div ← or_raise (Soup.find "div" None td) AttributeError;
  parse_time_str (PyStr.strip (Soup.text div)).

(** One turn of [for td in tds] in [get_rise_and_set]. *)
Definition sun_cell (st : sun_state) (td : node) : result sun_state :=
  if decide (Soup.text td = "") then Ok st
  else
    match sunrise st with
    | None =>
        t ← first_div_time td;
        Ok (SunState (times_ st) t (sunset st))
    | Some _ =>
        match sunset st with
        | None =>
            t ← first_div_time td;
            Ok (SunState (times_ st) (sunrise st) t)
        | Some _ =>
            data ← comprehension
                     (λ div, parse_time_str (PyStr.strip (Soup.text div)))
                     (Soup.find_all "div" None td);
            if bool_decide (data ≠ []) && bool_decide (data ≠ [None; None])
            then Ok (SunState (times_ st ++ [data]) (sunrise st) (sunset st))
            else Ok st
        end
    end.

(** The body of [get_rise_and_set] for the row whose sun cells are [tds];
    a [time] is true, so [sunrise and sunset] asks that neither is [None]. *)
Definition sun_row (tds : list node) : result (list sun_window) :=
  st ← for_each sun_cell tds (SunState [] None None);
  match sunrise st, sunset st with
  | Some _, Some _ => Ok ([sunrise st; sunset st] :: times_ st)
  | _, _ => Ok (times_ st)
  end.

(** The [for tr in table.find_all('tr')] loop; running off its end
    returns [None]. *)
Fixpoint sun_rows_loop (trs : list node) : result (option (list sun_window)) :=
  match trs with
  | [] => Ok None
  | tr :: trs' =>
      match Soup.find_all "td" (Some "tide-table__part--sun") tr with
      | [] => sun_rows_loop trs'
      | tds => Some <$> sun_row tds
      end
  end.

Definition get_rise_and_set (table : node)
  : result (option (list sun_window)) :=
  sun_rows_loop (Soup.find_all "tr" None table).

(** One element of the comprehension of [get_dates_from_table]. *)
Definition day_column (th : node) : result (date * Z) :=
  v ← or_raise (Soup.attr th "data-date") KeyError;
  d ← match v with
      | AttrStr s => or_raise (fromisoformat s) ValueError
      | AttrList _ => Raise TypeError
      end;
  c ← match Soup.attr th "colspan" with
      | None => Ok 0%Z
      | Some (AttrStr s) => or_raise (py_int s) ValueError
      | Some (AttrList _) => Raise TypeError
      end;
  Ok (d, c).

Definition get_dates_from_table (table : node) : result (list (date * Z)) :=
  comprehension day_column (Soup.find_all "th" (Some "tide-table__day") table).

(** The test [rise_and_set[indx][0] <= tide_time <= rise_and_set[indx][1]]:
    the right comparison is evaluated only when the left one holds. *)
Definition in_daylight (rise_and_set : option (list sun_window)) (indx : nat)
    (tide_time : option time) : result bool :=
  rs ← or_raise rise_and_set TypeError;
  w ← or_raise ((rs : list sun_window) !! indx) IndexError;
  lo ← or_raise ((w : sun_window) !! 0) IndexError;
  after_sunrise ← py_le lo tide_time;
  if (after_sunrise : bool) then
    hi ← or_raise (w !! 1) IndexError;
    py_le tide_time hi
  else Ok false.

(** One turn of [for tide_time, value, units in tide_data]. *)
Definition keep_reading (rise_and_set : option (list sun_window)) (indx : nat)
    (dt : date) (filtered_tides : list (date * list reading)) (r : reading)
  : result (list (date * list reading)) :=
  let '(tide_time, value, units) := r in
  keep ← in_daylight rise_and_set indx tide_time;
  if (keep : bool)
  then Ok (dict_extend filtered_tides dt [(tide_time, value, units)])
  else Ok filtered_tides.

(** [for indx, (dt, tide_data) in enumerate(items)] *)
Fixpoint filter_loop (rise_and_set : option (list sun_window))
    (items : list (date * list reading)) (indx : nat)
    (filtered_tides : list (date * list reading))
  : result (list (date * list reading)) :=
  match items with
  | [] => Ok filtered_tides
  | (dt, tide_data) :: items' =>
      filtered_tides' ←
        for_each (keep_reading rise_and_set indx dt) tide_data filtered_tides;
      filter_loop rise_and_set items' (S indx) filtered_tides'
  end.

(** The daylight filter: lines 236 to 243 of [extract_tides]. *)
Definition daylight_filter (tides_for_location : list (date * list reading))
    (rise_and_set : option (list sun_window))
  : result (list (date * list reading)) :=
  filter_loop rise_and_set tides_for_location 0 [].

(** [extract_tides] from the table on; [None.items()] raises. *)
Definition extract_tides (table : node) : result (list (date * list reading)) :=
  dates_from_table ← get_dates_from_table table;
  rise_and_set ← get_rise_and_set table;
  tides_for_location ← get_tides table dates_from_table;
  items ← or_raise tides_for_location AttributeError;
  daylight_filter items rise_and_set.

End Scraper.

Arguments reading height : clear implicits.
Arguments make_row strptime_time {height} py_float value height_ units.
Arguments append_row strptime_time {height} py_float data container.
Arguments get_data strptime_time {height} py_float td.
Arguments cols_loop strptime_time {height} py_float n tds dt tides td_index.
Arguments row_loop strptime_time {height} py_float days tds td_index tides.
Arguments rows_loop strptime_time {height} py_float trs dates_from_table tides.
Arguments get_tides strptime_time {height} py_float table dates_from_table.
Arguments keep_reading {height} rise_and_set indx dt filtered_tides r.
Arguments filter_loop {height} rise_and_set items indx filtered_tides.
Arguments daylight_filter {height} tides_for_location rise_and_set.
Arguments extract_tides strptime_time {height} py_float fromisoformat py_int
  table.

Definition is_Ok {A} (m : result A) : Prop := ∃ a, m = Ok a.

(** The readings of a cell, none when [get_data] raises, and those of a
    run of cells, in cell order. *)
Definition cell_readings (strptime_time : string → option time)
    {height : Type} (py_float : string → option height) (td : node)
  : list (reading height) :=
  match get_data strptime_time py_float td with
  | Ok data => data
  | Raise _ => []
  end.

Definition readings_of (strptime_time : string → option time)
    {height : Type} (py_float : string → option height) (cells : list node)
  : list (reading height) :=
  flat_map (cell_readings strptime_time py_float) cells.

(** The rule of the specification for the cells of a row: a day with
    column count 0 takes one cell, a day with column count N takes the
    next N cells. *)
Definition cells_consumed (cols : Z) : nat :=
  if (cols =? 0)%Z then 1 else Z.to_nat cols.

Fixpoint day_cells (days : list (date * Z)) (tds : list node)
  : list (date * Z * list node) :=
  match days with
  | [] => []
  | (dt, cols) :: days' =>
      (dt, cols, take (cells_consumed cols) tds)
        :: day_cells days' (drop (cells_consumed cols) tds)
  end.

(** The number of cells that the days account for. *)
Definition cells_needed (days : list (date * Z)) : nat :=
  sum_list (cells_consumed <$> days.*2).

(** The dictionary once each day of [dc] is given the readings of its
    cells: set for a column count of 0, extended otherwise. *)
Fixpoint assign_days (strptime_time : string → option time)
    {height : Type} (py_float : string → option height)
    (dc : list (date * Z * list node))
    (tides : list (date * list (reading height)))
  : list (date * list (reading height)) :=
  match dc with
  | [] => tides
  | (dt, cols, cells) :: dc' =>
      assign_days strptime_time py_float dc'
        (if (cols =? 0)%Z
         then dict_set tides dt (readings_of strptime_time py_float cells)
         else extend_if_data tides dt
                (readings_of strptime_time py_float cells))
  end.

(** The times of the [div] groups of a cell; parsing never raises. *)
Definition div_times (strptime_time : string → option time) (td : node)
  : list (option time) :=
  map (λ div,
         match parse_time_str strptime_time (PyStr.strip (Soup.text div)) with
         | Ok o => o
         | Raise _ => None
         end)
      (Soup.find_all "div" None td).

(** The windows that the cells after sunrise and sunset add: a cell
    without text, without a time, or with the pair [None, None] adds
    nothing. *)
Definition later_windows (strptime_time : string → option time)
    (tds : list node) : list (list (option time)) :=
  flat_map (λ td,
     if decide (Soup.text td = "") then []
     else if bool_decide (div_times strptime_time td ≠ []) &&
             bool_decide (div_times strptime_time td ≠ [None; None])
          then [div_times strptime_time td] else []) tds.

(** The daylight window of the specification: the time of the reading
    is there and lies between sunrise and sunset, both included. *)
Definition in_window {height : Type} (sunrise_ sunset_ : time)
    (r : reading height) : bool :=
  match r.1.1 with
  | Some t => time_le sunrise_ t && time_le t sunset_
  | None => false
  end.

(** ** The library parsers on canonical input

    Executable versions of the five library parsers for the strings the
    site writes: two-digit fields and upper-case markers.  They give
    [None] on every other string. *)

Module Lib.

Definition digit (c : ascii) : option N :=
  if PyStr.is_digit c then Some (N_of_ascii c - 48)%N else None.

Definition two_digits (a b : ascii) : option N :=
  x ← digit a; y ← digit b; Some (10 * x + y)%N.

Fixpoint digits_acc (s : string) (acc : N) : option N :=
  match s with
  | EmptyString => Some acc
  | String c s' => d ← digit c; digits_acc s' (10 * acc + d)%N
  end.

Definition digits (s : string) : option N :=
  match s with
  | EmptyString => None
  | _ => digits_acc s 0%N
  end.

(** [datetime.strptime(s, "%I:%M%p").time()] on ["HH:MMAM"] and ["HH:MMPM"]. *)
Definition strptime_time (s : string) : option time :=
  match s with
  | String h1 (String h2 (String ":" (String m1 (String m2 (String p "M"))))) =>
      h ← two_digits h1 h2;
      m ← two_digits m1 m2;
      if ((1 <=? h) && (h <=? 12) && (m <=? 59))%N then
        if Ascii.eqb p "A" then Some (Time (h mod 12) m 0 0)
        else if Ascii.eqb p "P" then Some (Time (h mod 12 + 12) m 0 0)
        else None
      else None
  | _ => None
  end.

(** [float(s)] on ["d...d"] and ["d...d.d...d"], as a fraction. *)
Definition py_float (s : string) : option Q :=
  match PyStr.split "." s with
  | [i] => n ← digits i; Some (Qmake (Z.of_N n) 1)
  | [i; f] =>
      n ← digits i;
      m ← digits f;
      let den := (10 ^ N.of_nat (String.length f))%N in
      Some (Qmake (Z.of_N (n * den + m)) (Z.to_pos (Z.of_N den)))
  | _ => None
  end.

(** [int(s)] on an optional minus sign and digits. *)
Definition py_int (s : string) : option Z :=
  match s with
  | String "-" s' => n ← digits s'; Some (- Z.of_N n)%Z
  | _ => n ← digits s; Some (Z.of_N n)
  end.

(** [date.fromisoformat(s)] on ["YYYY-MM-DD"]. *)
Definition fromisoformat (s : string) : option date :=
  match PyStr.split "-" s with
  | [y; m; d] =>
      if (String.length y =? 4) && (String.length m =? 2)
         && (String.length d =? 2)
      then
        y' ← digits y; m' ← digits m; d' ← digits d;
        if valid_date (Date y' m' d') then Some (Date y' m' d') else None
      else None
  | _ => None
  end.

Definition weekdays : list string :=
  ["Mon"; "Tue"; "Wed"; "Thu"; "Fri"; "Sat"; "Sun"].

Definition months : list string :=
  ["January"; "February"; "March"; "April"; "May"; "June"; "July";
   "August"; "September"; "October"; "November"; "December"].

Fixpoint index_of (x : string) (l : list string) : option nat :=
  match l with
  | [] => None
  | y :: l' => if decide (y = x) then Some 0 else S <$> index_of x l'
  end.

(** [datetime.strptime(s, "%a %d %B").date()] on ["Www DD Month"]: the
    year of a date parsed without a year is 1900. *)
Definition strptime_date (s : string) : option date :=
  match PyStr.split " " s with
  | [a; d; b] =>
      _ ← index_of a weekdays;
      m ← index_of b months;
      if String.length d =? 2 then
        d' ← digits d;
        let r := Date 1900 (N.of_nat (S m)) d' in
        if valid_date r then Some r else None
      else None
  | _ => None
  end.

End Lib.

(** ** Sample pages *)

Module Sample.

Definition classes (cs : list string) : gmap string attr_value :=
  {[ "class" := AttrList cs ]}.

Definition span (cls txt : string) : node :=
  Tag "span" (classes [cls]) [NavigableString txt].

(** One value/height/units group. *)
Definition group (t h u : string) : node :=
  Tag "div" ∅
    [span "tide-table__value-low" t; span "tide-table__height" h;
     span "tide-table__units" u].

(** A group whose height span is missing. *)
Definition group_no_height (t u : string) : node :=
  Tag "div" ∅ [span "tide-table__value-low" t; span "tide-table__units" u].

Definition low_cell (cs : list node) : node :=
  Tag "td" (classes ["tide-table__part"; "tide-table__part--low"]) cs.

Definition high_cell (cs : list node) : node :=
  Tag "td" (classes ["tide-table__part"; "tide-table__part--high"]) cs.

Definition separator_row (cells : list node) : node :=
  Tag "tr" (classes ["tide-table__separator"]) cells.

Definition day_header (iso : string) (colspan : option string) : node :=
  Tag "th"
    (match colspan with
     | Some c => <[ "colspan" := AttrStr c ]>
     | None => id
     end (<[ "data-date" := AttrStr iso ]> (classes ["tide-table__day"])))
    [].

Definition sun_cell1 (t : string) : node :=
  Tag "td" (classes ["tide-table__part--sun"])
    [Tag "div" ∅ [NavigableString t]].

Definition sun_cell2 (t1 t2 : string) : node :=
  Tag "td" (classes ["tide-table__part--sun"])
    [Tag "div" ∅ [NavigableString t1]; Tag "div" ∅ [NavigableString t2]].

Definition table (rows : list node) : node :=
  Tag "table" (classes ["tide-table__table"]) rows.

Definition get_data := get_data Lib.strptime_time Lib.py_float.
Definition get_tides := get_tides Lib.strptime_time Lib.py_float.
Definition get_rise_and_set := get_rise_and_set Lib.strptime_time.
Definition get_dates_from_table :=
  get_dates_from_table Lib.fromisoformat Lib.py_int.
Definition extract_tides :=
  extract_tides Lib.strptime_time Lib.py_float Lib.fromisoformat Lib.py_int.

Definition nov4 : date := Date 2024 11 4.
Definition nov5 : date := Date 2024 11 5.

Definition at_ (h m : N) : option time := Some (Time h m 0 0).

(** A height in tenths. *)
Definition tenths (n : Z) : Q := Qmake n 10.

(** The end-to-end scenario: two days, the second spanning two cells. *)
Definition header_row : node :=
  Tag "tr" ∅ [day_header "2024-11-04" None; day_header "2024-11-05" (Some "2")].

Definition sun_tr : node :=
  Tag "tr" ∅
    [sun_cell1 " 6:00AM"; sun_cell1 " 5:30PM"; sun_cell2 " 6:01AM" " 5:29PM"].

Definition high_row : node :=
  separator_row [high_cell [group "9:00AM" "4.1" "ft"]].

Definition low_row : node :=
  separator_row
    [low_cell [group " 5:45AM" "1.2" "ft"; group "00:00PM" "0.8" "ft"];
     low_cell [group " 6:30AM" "1.0" "ft"];
     low_cell [group " 6:00PM" "0.9" "ft"]].

Definition scenario : node :=
  table [header_row; sun_tr; high_row; low_row].

Definition scenario_days : list (date * Z) := [(nov4, 0%Z); (nov5, 2%Z)].

Definition scenario_tides : list (date * list (reading Q)) :=
  [ (nov4, [(at_ 5 45, tenths 12, "ft"); (at_ 12 0, tenths 8, "ft")]);
    (nov5, [(at_ 6 30, tenths 10, "ft"); (at_ 18 0, tenths 9, "ft")]) ].

Definition scenario_windows : list (list (option time)) :=
  [ [at_ 6 0; at_ 17 30]; [at_ 6 1; at_ 17 29] ].

(** The scenario without its sun row. *)
Definition no_sun_row : node := table [header_row; high_row; low_row].

(** Two rows with a low tide for the same day. *)
Definition first_low_row : node :=
  separator_row [low_cell [group " 5:45AM" "1.2" "ft"]].

Definition second_low_row : node :=
  separator_row [low_cell [group " 6:10PM" "0.3" "ft"]].

Definition two_low_rows : node := table [first_low_row; second_low_row].

(** A row with one cell more than the one day accounts for. *)
Definition two_cell_row : node :=
  separator_row
    [low_cell [group " 5:45AM" "1.2" "ft"];
     low_cell [group " 6:10PM" "0.3" "ft"]].

Definition wide_row : node :=
  table [Tag "tr" ∅ [day_header "2024-11-04" None]; two_cell_row].

(** A row whose one cell is that of the first day: the second day is
    not reached. *)
Definition short_row : node := table [header_row; first_low_row].

(** A second day whose two cells hold no reading. *)
Definition empty_second_day : node :=
  table
    [ header_row;
      separator_row
        [low_cell [group " 5:45AM" "1.2" "ft"]; low_cell []; low_cell []] ].

(** Cells with no group, one group, two groups, three groups, and two
    groups of which the second lacks its height. *)
Definition no_group : node := low_cell [].

Definition one_group : node := low_cell [group " 5:45AM" "1.2" "ft"].

Definition two_groups : node :=
  low_cell [group " 5:45AM" "1.2" "ft"; group " 6:10PM" "0.3" "ft"].

Definition three_groups : node :=
  low_cell
    [group " 5:45AM" "1.2" "ft"; group " 6:10PM" "0.3" "ft";
     group "11:59PM" "0.1" "ft"].

Definition half_cell : node :=
  low_cell [group " 5:45AM" "1.2" "ft"; group_no_height " 6:10PM" "ft"].

End Sample.

(** ** Locations and the table locator *)

(** [s.replace(old, new)] for a one-character [old] and [new]. *)
Fixpoint str_replace (old new : ascii) (s : string) : string :=
  match s with
  | EmptyString => EmptyString
  | String c s' =>
      String (if Ascii.eqb c old then new else c) (str_replace old new s')
  end.

(** [s.count(c)] for a character. *)
Fixpoint str_count (c : ascii) (s : string) : nat :=
  match s with
  | EmptyString => 0
  | String c' s' => (if Ascii.eqb c' c then 1 else 0) + str_count c s'
  end.

(** [parse_location]; the unpacking of [split(',')] raises [ValueError]
    unless there are two parts. *)
Definition parse_location (location : string) : result string :=
  match PyStr.split "," (PyStr.strip location) with
  | [city; state] =>
      Ok (str_replace " " "-" (PyStr.strip city) +:+ "-"
          +:+ str_replace " " "-" (PyStr.strip state))
  | _ => Raise ValueError
  end.

Definition get_location_without_state (location : string) : result string :=
  match PyStr.split "," (PyStr.strip location) with
  | [city; state] => Ok (str_replace " " "-" (PyStr.strip city))
  | _ => Raise ValueError
  end.

Definition BASE_URL : string := "https://www.tide-forecast.com".

(** The URL [f"{BASE_URL}/locations/{slug}/tides/latest"]. *)
Definition tides_url (slug : string) : string :=
  BASE_URL +:+ "/locations/" +:+ slug +:+ "/tides/latest".

(** What a method that sends requests does: it returns, it raises one of
    the exceptions of the scraper, or the request itself raises. *)
Inductive outcome (A : Type) : Type :=
  | Done (a : A)
  | Fails (e : exn)
  | RequestException.
Arguments Done {A} a.
Arguments Fails {A} e.
Arguments RequestException {A}.

Definition of_result {A} (m : result A) : outcome A :=
  match m with
  | Ok a => Done a
  | Raise e => Fails e
  end.

Section TableLocator.

(** [fetch url] is [BeautifulSoup(requests.get(url).text, "html.parser")],
    the parsed page, or [None] when [requests.get] raises. *)
Variable fetch : string → option node.

(** [get_from_url]: a tag is true, so [if table: return table] returns
    what [soup.find] found, and [None] otherwise. *)
Definition get_from_url (url : string) : outcome (option node) :=
  match fetch url with
  | None => RequestException
  | Some soup => Done (Soup.find "table" (Some "tide-table__table") soup)
  end.

Definition get_table (location : string) : outcome (option node) :=
  match parse_location location with
  | Raise e => Fails e
  | Ok parsed_location =>
      match get_from_url (tides_url parsed_location) with
      | Done (Some table) => Done (Some table)
      | Done None =>
          match get_location_without_state location with
          | Raise e => Fails e
          | Ok location_without_state =>
              get_from_url (tides_url location_without_state)
          end
      | Fails e => Fails e
      | RequestException => RequestException
      end
  end.

End TableLocator.

(** [extract_tides] for a location: [get_dates_from_table(None)] raises
    [AttributeError] when no table was found. *)
Definition extract_tides_location (fetch : string → option node)
    (strptime_time : string → option time) {height : Type}
    (py_float : string → option height)
    (fromisoformat : string → option date) (py_int : string → option Z)
    (location : string) : outcome (list (date * list (reading height))) :=
  match get_table fetch location with
  | Done (Some table) =>
      of_result
        (extract_tides strptime_time py_float fromisoformat py_int table)
  | Done None => Fails AttributeError
  | Fails e => Fails e
  | RequestException => RequestException
  end.

(** ** Helpers of the statements *)

(** The days that get a key: a column count of 0, or a reading. *)
Definition gets_key (strptime_time : string → option time)
    {height : Type} (py_float : string → option height)
    (dc : date * Z * list node) : bool :=
  (dc.1.2 =? 0)%Z
  || negb (bool_decide (readings_of strptime_time py_float dc.2 = [])).

(** A cell of a row with a class attribute that has no part of the
    given tide type. *)
Definition other_cell (tide_type : string) (td : node) : Prop :=
  ∃ cls, Soup.attr td "class" = Some cls ∧
         Soup.py_in ("tide-table__part--" +:+ tide_type) cls = false.

(** A sun window that [get_rise_and_set] can hold: not the empty list,
    not the pair [None, None]. *)
Definition kept_window (w : list (option time)) : Prop :=
  w ≠ [] ∧ w ≠ [None; None].

(** The entries of the filtered dictionary when the readings [keeps]
    are kept of the days [items]: a day of which nothing is kept has no
    entry. *)
Definition kept_entries {height : Type}
    (items : list (date * list (reading height)))
    (keeps : list (list (reading height)))
  : list (date * list (reading height)) :=
  omap (λ p, match p.2 with
             | [] => None
             | _ => Some (p.1.1, p.2)
             end) (zip items keeps).

(** The cell has text. *)
Definition has_text (td : node) : bool :=
  negb (bool_decide (Soup.text td = "")).

(** [get_data] succeeds on the cells before the index [bound]. *)
Definition ok_before (strptime_time : string → option time)
    {height : Type} (py_float : string → option height)
    (tds : list node) (bound : nat) : Prop :=
  ∀ i td, tds !! i = Some td → i < bound →
          is_Ok (get_data strptime_time py_float td).

(** Sample pages and locations. *)
Module Cases.

Definition half_moon_bay : string := "Half Moon Bay, California".

Definition page (tables : list node) : node :=
  Tag "[document]" ∅ [Tag "html" ∅ [Tag "body" ∅ tables]].

(** A site that knows the city only under its name without the state. *)
Definition city_only_site (url : string) : option node :=
  if decide (url = tides_url "Half-Moon-Bay") then Some (page [Sample.scenario])
  else Some (page []).

(** A site that answers the first request and none after it. *)
Definition one_answer_site (url : string) : option node :=
  if decide (url = tides_url "Half-Moon-Bay-California") then Some (page [])
  else None.

(** A cell without a class attribute. *)
Definition bare_cell : node := Tag "td" ∅ [].

(** A header cell without its date. *)
Definition undated_header : node :=
  Tag "th" (Sample.classes ["tide-table__day"]) [].

(** A sun cell with text and no [div]. *)
Definition flat_sun_cell : node :=
  Tag "td" (Sample.classes ["tide-table__part--sun"])
    [NavigableString "6:00AM"].

(** A sun cell without text. *)
Definition blank_sun_cell : node :=
  Tag "td" (Sample.classes ["tide-table__part--sun"]) [Tag "div" ∅ []].

(** A reading whose time did not parse. *)
Definition untimed : reading Q := (None, Sample.tenths 7, "ft").

(** A site where no page has the table. *)
Definition empty_site (url : string) : option node := Some (page []).

(** A row whose first cell has no class attribute. *)
Definition bare_first_row : node :=
  Tag "tr" ∅ [bare_cell; Sample.low_cell []].

(** A row whose low tide cell comes before a cell without class attribute. *)
Definition bare_last_row : node :=
  Tag "tr" ∅ [Sample.high_cell []; Sample.low_cell []; bare_cell].

(** A header row whose second day has no date. *)
Definition undated_table : node :=
  Sample.table
    [Tag "tr" ∅ [Sample.day_header "2024-11-04" None; undated_header]].

(** Cells with a height that is no number, and with a time without colon. *)
Definition bad_height_cell : node :=
  Sample.low_cell [Sample.group " 5:45AM" "n/a" "ft"].

Definition bad_height_second : node :=
  Sample.low_cell
    [Sample.group " 5:45AM" "1.2" "ft"; Sample.group " 6:10PM" "n/a" "ft"].

Definition no_colon_cell : node :=
  Sample.low_cell [Sample.group "noon" "1.2" "ft"].

(** The scenario with its row of high tides only. *)
Definition high_only : node :=
  Sample.table [Sample.header_row; Sample.sun_tr; Sample.high_row].

(** Three days, the second with two cells and no reading. *)
Definition nov6 : date := Date 2024 11 6.

Definition gap_days : list (date * Z) :=
  [(Sample.nov4, 0%Z); (Sample.nov5, 2%Z); (nov6, 0%Z)].

Definition gap_row : node :=
  Sample.separator_row
    [Sample.low_cell [Sample.group " 5:45AM" "1.2" "ft"];
     Sample.low_cell []; Sample.low_cell [];
     Sample.low_cell [Sample.group " 6:10PM" "0.3" "ft"]].

Definition gap_table : node := Sample.table [gap_row].

(** A row whose second cell has a height that is no number. *)
Definition bad_cell_row : node :=
  Sample.separator_row
    [Sample.low_cell [Sample.group " 5:45AM" "1.2" "ft"]; bad_height_cell].

Definition bad_cell_table : node := Sample.table [bad_cell_row].

(** Sun rows: a cell with text and no [div]; a sunrise and nothing else. *)
Definition flat_sun_row : node := Tag "tr" ∅ [blank_sun_cell; flat_sun_cell].

Definition flat_sun_table : node :=
  Sample.table [Sample.header_row; flat_sun_row].

Definition sunrise_only_row : node :=
  Tag "tr" ∅ [Sample.sun_cell1 " 6:00AM"; blank_sun_cell].

Definition sunrise_only_table : node :=
  Sample.table [Sample.header_row; sunrise_only_row].

(** Tides with a reading without time on the second day. *)
Definition untimed_tides : list (date * list (reading Q)) :=
  [ (Sample.nov4, [(Sample.at_ 12 0, Sample.tenths 8, "ft")]);
    (Sample.nov5, [untimed]) ].

End Cases.

(** * Properties *)

(** *** Properties of the string helpers *)

Lemma rstrip_cons_nonspace c s :
  PyStr.is_space c = false →
  PyStr.rstrip (String c s) = String c (PyStr.rstrip s).
Proof.
  intros Hc. simpl. destruct (PyStr.rstrip s); [by rewrite Hc | done].
Qed.

Lemma has_char_rstrip c s :
  PyStr.has_char c s = false → PyStr.has_char c (PyStr.rstrip s) = false.
Proof.
  induction s as [|a s IH]; [done|]. simpl.
  intros [Ha Hs]%orb_false_iff. specialize (IH Hs).
  destruct (PyStr.rstrip s) eqn:E.
  - destruct (PyStr.is_space a); [done|]. simpl. by rewrite Ha.
  - simpl in *. by rewrite Ha, IH.
Qed.

Lemma split_no_sep sep s :
  PyStr.has_char sep s = false → PyStr.split sep s = [s].
Proof.
  induction s as [|a s IH]; [done|]. simpl.
  intros [Ha Hs]%orb_false_iff. rewrite Ha, (IH Hs). done.
Qed.

Lemma split_cons_other sep c s :
  Ascii.eqb c sep = false →
  PyStr.split sep (String c s) =
    match PyStr.split sep s with
    | p :: ps => String c p :: ps
    | [] => [String c EmptyString]
    end.
Proof. intros H. simpl. by rewrite H. Qed.

Lemma digit_not_space c : PyStr.is_digit c = true → PyStr.is_space c = false.
Proof.
  unfold PyStr.is_digit, PyStr.is_space. intros H.
  apply andb_true_iff in H as [H1%Nat.leb_le H2%Nat.leb_le].
  repeat (apply orb_false_iff; split);
    rewrite ?andb_false_iff, ?Nat.leb_gt, ?Nat.eqb_neq; lia.
Qed.

Lemma digit_not_colon c : PyStr.is_digit c = true → Ascii.eqb c ":" = false.
Proof.
  intros H. apply Ascii.eqb_neq. intros ->. by vm_compute in H.
Qed.

(** The normaliser on a string whose hour field is two digits. *)
Lemma force_hour_two_digits_digits h1 h2 rest :
  PyStr.is_digit h1 = true → PyStr.is_digit h2 = true →
  PyStr.has_char ":" rest = false →
  force_hour_two_digits (String h1 (String h2 (":" +:+ rest))) =
    Ok (fix_hour (String "0" (String h1 (String h2 "")))
        +:+ ":" +:+ PyStr.rstrip rest).
Proof.
  intros H1 H2 Hr. unfold force_hour_two_digits, PyStr.strip.
  assert (PyStr.lstrip (String h1 (String h2 (":" +:+ rest)))
          = String h1 (String h2 (":" +:+ rest))) as ->.
  { simpl. by rewrite (digit_not_space _ H1). }
  rewrite (rstrip_cons_nonspace h1) by by apply digit_not_space.
  rewrite (rstrip_cons_nonspace h2) by by apply digit_not_space.
  change (":" +:+ rest) with (String ":" rest).
  rewrite (rstrip_cons_nonspace ":") by done.
  change ("0" +:+ ?s) with (String "0" s).
  rewrite (split_cons_other ":" "0") by done.
  rewrite (split_cons_other ":" h1) by by apply digit_not_colon.
  rewrite (split_cons_other ":" h2) by by apply digit_not_colon.
  assert (PyStr.split ":" (String ":" (PyStr.rstrip rest))
          = [""; PyStr.rstrip rest]) as ->.
  { simpl. by rewrite split_no_sep by by apply has_char_rstrip. }
  done.
Qed.

(** *** Dates *)

Lemma days_in_month_1900 y m : (days_in_month 1900 m ≤ days_in_month y m)%N.
Proof.
  unfold days_in_month.
  destruct m as [|[[[|[]|]|[[]|[]|]|]|[[[]|[]|]|[[]|[]|]|]|]];
    try lia; simpl; destruct (is_leap y); lia.
Qed.

(** A date that exists in 1900, not a leap year, exists in every year. *)
Lemma valid_date_any_year m d y :
  valid_date (Date 1900 m d) = true → (1 ≤ y ≤ MAXYEAR)%N →
  valid_date (Date y m d) = true.
Proof.
  unfold valid_date. cbn [year month day]. intros H Hy.
  repeat (apply andb_true_iff in H as [H ?]).
  repeat (apply andb_true_iff; split); try done;
    try (apply N.leb_le; lia).
  apply N.leb_le. etrans; [by apply N.leb_le | apply days_in_month_1900].
Qed.

Lemma valid_date_year d : valid_date d = true → (1 ≤ year d ≤ MAXYEAR)%N.
Proof.
  unfold valid_date. intros H.
  repeat (apply andb_true_iff in H as [H ?]).
  split; by apply N.leb_le.
Qed.

(** *** Times *)

Lemma time_le_micros a b :
  valid_time a → valid_time b →
  time_le a b = true ↔ (to_micros a ≤ to_micros b)%N.
Proof.
  destruct a as [h1 m1 s1 u1], b as [h2 m2 s2 u2].
  unfold valid_time, time_le, time_cmp, to_micros.
  cbn [hour minute second microsecond].
  intros (?&?&?&?) (?&?&?&?).
  destruct (N.compare_spec h1 h2); [subst| |];
    [ destruct (N.compare_spec m1 m2); [subst| |];
      [ destruct (N.compare_spec s1 s2); [subst| |];
        [ destruct (N.compare_spec u1 u2) |..] |..] |..];
    split; try done; try lia.
Qed.

Lemma time_le_refl a : time_le a a = true.
Proof.
  unfold time_le, time_cmp. by rewrite !N.compare_refl.
Qed.

(** ** The hour normaliser *)

(** C8. On a time string whose hour field is two digits,
    [force_hour_two_digits] gives the hour "12" when the hour is "00" and
    leaves every other hour as it is: the hour is the last two
    characters of the string padded with a leading zero.  The rest of
    the string is kept, stripped of its trailing white space. *)
Theorem force_hour_two_digits_hour h1 h2 rest :
  PyStr.is_digit h1 = true → PyStr.is_digit h2 = true →
  PyStr.has_char ":" rest = false →
  let hh := String h1 (String h2 "") in
  PyStr.last_two ("0" +:+ hh) = hh ∧
  force_hour_two_digits (hh +:+ ":" +:+ rest) =
    Ok ((if decide (hh = "00") then "12" else hh)
        +:+ ":" +:+ PyStr.rstrip rest).
Proof.
  intros H1 H2 Hr hh. split; [done|].
  exact (force_hour_two_digits_digits h1 h2 rest H1 H2 Hr).
Qed.

Lemma force_hour_two_digits_hour_midnight :
  PyStr.last_two ("0" +:+ "00") = "00" ∧
  force_hour_two_digits "00:30AM" = Ok "12:30AM".
Proof.
  apply (force_hour_two_digits_hour "0" "0" "30AM"); reflexivity.
Defined.

(** ** The year of a parsed date *)

Lemma replace_year_1900 d y :
  valid_date d = true → year d = 1900%N → (1 ≤ y ≤ MAXYEAR)%N →
  replace_year d y = Ok (Date y (month d) (day d)).
Proof.
  intros Hv Hy Hr. unfold replace_year.
  destruct d as [yy m dd]. simpl in *. subst yy.
  by rewrite (valid_date_any_year m dd y Hv Hr).
Qed.

(** C9. For a date string that [strptime] parses (to a date of the year
    1900, as it does for a format without a year), [parse_date_str]
    returns the parsed month and day in the year after today's when
    today is in December and the parsed month is January, and in
    today's year otherwise.  The year after today's has to exist. *)
Theorem parse_date_str_year (strptime_date : string → option date)
    (today : date) (date_str : string) (d : date) :
  strptime_date date_str = Some d →
  valid_date d = true → year d = 1900%N →
  valid_date today = true →
  (month today = 12 → month d = 1 → year today < MAXYEAR)%N →
  parse_date_str strptime_date today date_str =
    Ok (Some (Date (if (month today =? 12)%N && (month d =? 1)%N
                    then year today + 1 else year today)%N
                   (month d) (day d))).
Proof.
  intros Hs Hd H1900 Ht Hmax.
  pose proof (valid_date_year _ Ht) as Hy.
  unfold parse_date_str, adjust_year. rewrite Hs. simpl.
  destruct (N.eqb_spec (month today) 12) as [E12|E12]; simpl;
    [destruct (N.eqb_spec (month d) 1) as [E1|E1]; simpl|].
  - rewrite replace_year_1900; [done..|]. specialize (Hmax E12 E1). lia.
  - by rewrite replace_year_1900.
  - by rewrite replace_year_1900.
Qed.

Lemma parse_date_str_year_rollover :
  parse_date_str Lib.strptime_date (Date 2024 12 15) "Wed 01 January" =
    Ok (Some (Date 2025 1 1)).
Proof.
  apply (parse_date_str_year Lib.strptime_date (Date 2024 12 15)
           "Wed 01 January" (Date 1900 1 1)).
  - reflexivity.
  - reflexivity.
  - reflexivity.
  - reflexivity.
  - simpl. unfold MAXYEAR. lia.
Defined.

(** ** The readings of a cell *)

Section GetData.
Context (strptime_time : string → option time).
Context {height : Type} (py_float : string → option height).

Lemma parse_time_str_total s : ∃ o, parse_time_str strptime_time s = Ok o.
Proof.
  unfold parse_time_str, force_hour_two_digits.
  destruct (PyStr.split _ _) as [|l [|r [|? ?]]]; simpl; eauto.
  destruct (strptime_time _); simpl; eauto.
Qed.

Lemma append_row_complete data c v h u x :
  get_value_height_unit c = (Some v, Some h, Some u) →
  py_float (Soup.text h) = Some x →
  ∃ t, parse_time_str strptime_time (Soup.text v) = Ok t ∧
       append_row strptime_time py_float data c =
         Ok (data ++ [(t, x, Soup.text u)]).
Proof.
  intros Hc Hx. destruct (parse_time_str_total (Soup.text v)) as [t Ht].
  exists t. split; [done|].
  unfold append_row, make_row. rewrite Hc, Ht. simpl.
  by rewrite Hx.
Qed.

Lemma append_row_no_height data c v u :
  get_value_height_unit c = (v, None, u) →
  append_row strptime_time py_float data c = Ok data.
Proof.
  intros Hc. unfold append_row. rewrite Hc. by destruct v.
Qed.

(** A row is appended or not, and only [float] can raise. *)
Lemma append_row_outcome data c :
  match append_row strptime_time py_float data c with
  | Ok data' => length data' ≤ S (length data)
  | Raise e => e = ValueError
  end.
Proof.
  unfold append_row, make_row.
  destruct (get_value_height_unit c) as [[[v|] [h|]] [u|]]; simpl; try lia.
  destruct (parse_time_str_total (Soup.text v)) as [t ->]. simpl.
  destruct (py_float _); simpl; [|done].
  rewrite length_app. simpl. lia.
Qed.

Lemma get_data_one_div td d :
  Soup.find_all "div" None td = [d] →
  get_data strptime_time py_float td = append_row strptime_time py_float [] td.
Proof. intros H. unfold get_data. by rewrite H. Qed.

Lemma get_data_two_divs td d1 d2 :
  Soup.find_all "div" None td = [d1; d2] →
  get_data strptime_time py_float td =
    (data ← append_row strptime_time py_float [] d1;
     append_row strptime_time py_float data d2).
Proof.
  intros H. unfold get_data. rewrite H. simpl.
  destruct (append_row strptime_time py_float [] d1) as [data|]; simpl; [|done].
  by destruct (append_row strptime_time py_float data d2).
Qed.

Lemma get_data_other_divs td :
  length (Soup.find_all "div" None td) ≠ 1 →
  length (Soup.find_all "div" None td) ≠ 2 →
  get_data strptime_time py_float td = Ok [].
Proof.
  intros H1 H2. unfold get_data.
  destruct (Nat.eqb_spec (length (Soup.find_all "div" None td)) 1); [done|].
  destruct (Nat.eqb_spec (length (Soup.find_all "div" None td)) 2); done.
Qed.

(** C7. [get_data] on a cell: no [div] group gives no reading; one group
    and a complete triple in the cell give exactly that reading; two
    groups with a complete triple each give the two readings in order;
    two groups of which one lacks its height give the reading of the
    complete one only.  A triple is complete when its three spans are
    there and [float] reads the height. *)
Theorem get_data_cases (td : node) :
  (Soup.find_all "div" None td = [] →
   get_data strptime_time py_float td = Ok []) ∧
  (∀ d v h u x,
     Soup.find_all "div" None td = [d] →
     get_value_height_unit td = (Some v, Some h, Some u) →
     py_float (Soup.text h) = Some x →
     ∃ t, parse_time_str strptime_time (Soup.text v) = Ok t ∧
          get_data strptime_time py_float td = Ok [(t, x, Soup.text u)]) ∧
  (∀ d1 d2 v1 h1 u1 x1 v2 h2 u2 x2,
     Soup.find_all "div" None td = [d1; d2] →
     get_value_height_unit d1 = (Some v1, Some h1, Some u1) →
     py_float (Soup.text h1) = Some x1 →
     get_value_height_unit d2 = (Some v2, Some h2, Some u2) →
     py_float (Soup.text h2) = Some x2 →
     ∃ t1 t2, parse_time_str strptime_time (Soup.text v1) = Ok t1 ∧
              parse_time_str strptime_time (Soup.text v2) = Ok t2 ∧
              get_data strptime_time py_float td =
                Ok [(t1, x1, Soup.text u1); (t2, x2, Soup.text u2)]) ∧
  (∀ d1 d2 v1 h1 u1 x1 v2 u2,
     get_value_height_unit d1 = (Some v1, Some h1, Some u1) →
     py_float (Soup.text h1) = Some x1 →
     get_value_height_unit d2 = (v2, None, u2) →
     Soup.find_all "div" None td = [d1; d2] ∨
     Soup.find_all "div" None td = [d2; d1] →
     ∃ t1, parse_time_str strptime_time (Soup.text v1) = Ok t1 ∧
           get_data strptime_time py_float td = Ok [(t1, x1, Soup.text u1)]).
Proof.
  split; [|split; [|split]].
  - intros H. unfold get_data. by rewrite H.
  - intros d v h u x Hd Hc Hx.
    destruct (append_row_complete [] td v h u x Hc Hx) as (t & Ht & Hr).
    exists t. split; [done|]. by rewrite (get_data_one_div td d Hd).
  - intros d1 d2 v1 h1 u1 x1 v2 h2 u2 x2 Hd Hc1 Hx1 Hc2 Hx2.
    destruct (append_row_complete [] d1 v1 h1 u1 x1 Hc1 Hx1)
      as (t1 & Ht1 & Hr1).
    destruct (append_row_complete [(t1, x1, Soup.text u1)] d2 v2 h2 u2 x2
                Hc2 Hx2) as (t2 & Ht2 & Hr2).
    exists t1, t2. split; [done|]. split; [done|].
    rewrite (get_data_two_divs td d1 d2 Hd), Hr1. simpl. by rewrite Hr2.
  - intros d1 d2 v1 h1 u1 x1 v2 u2 Hc1 Hx1 Hc2 [Hd|Hd].
    + destruct (append_row_complete [] d1 v1 h1 u1 x1 Hc1 Hx1)
        as (t1 & Ht1 & Hr1).
      exists t1. split; [done|].
      rewrite (get_data_two_divs td d1 d2 Hd), Hr1. simpl.
      by rewrite (append_row_no_height _ d2 v2 u2 Hc2).
    + destruct (append_row_complete [] d1 v1 h1 u1 x1 Hc1 Hx1)
        as (t1 & Ht1 & Hr1).
      exists t1. split; [done|].
      rewrite (get_data_two_divs td d2 d1 Hd).
      rewrite (append_row_no_height _ d2 v2 u2 Hc2). simpl. by rewrite Hr1.
Qed.

(** C10. [get_data] returns at most two readings (the one thing it can
    raise is the [ValueError] of [float]), and a cell whose number of
    [div] groups is neither 1 nor 2 gives the empty list. *)
Theorem get_data_at_most_two (td : node) :
  match get_data strptime_time py_float td with
  | Ok data => length data ≤ 2
  | Raise e => e = ValueError
  end ∧
  (length (Soup.find_all "div" None td) ≠ 1 →
   length (Soup.find_all "div" None td) ≠ 2 →
   get_data strptime_time py_float td = Ok []).
Proof.
  split; [|apply get_data_other_divs].
  destruct (Soup.find_all "div" None td) as [|d1 [|d2 [|d3 ds]]] eqn:Hd.
  - rewrite get_data_other_divs; rewrite ?Hd; simpl; lia.
  - rewrite (get_data_one_div td d1 Hd).
    pose proof (append_row_outcome [] td) as H.
    destruct (append_row strptime_time py_float [] td); simpl in *; [lia|done].
  - rewrite (get_data_two_divs td d1 d2 Hd).
    pose proof (append_row_outcome [] d1) as H1.
    destruct (append_row strptime_time py_float [] d1) as [data|]; simpl in *;
      [|done].
    pose proof (append_row_outcome data d2) as H2.
    destruct (append_row strptime_time py_float data d2); simpl in *;
      [lia|done].
  - rewrite get_data_other_divs; rewrite ?Hd; simpl; lia.
Qed.

End GetData.

(** ** Dictionaries *)

Section DictFacts.
Context {K V : Type} `{EqDecision K}.
Implicit Types (d : list (K * V)) (k : K) (v : V).

Lemma dict_get_set d k v : dict_get (dict_set d k v) k = Some v.
Proof.
  induction d as [|[k' v'] d IH]; simpl.
  - by rewrite decide_True.
  - destruct (decide (k' = k)) as [->|Hne]; simpl.
    + by rewrite decide_True.
    + by rewrite decide_False.
Qed.

Lemma dict_get_set_ne d k k' v :
  k ≠ k' → dict_get (dict_set d k v) k' = dict_get d k'.
Proof.
  intros Hne. induction d as [|[k0 v0] d IH]; simpl.
  - by rewrite decide_False.
  - destruct (decide (k0 = k)) as [->|Hk]; simpl.
    + by rewrite !decide_False.
    + by rewrite IH.
Qed.

Lemma dict_set_set d k v v' : dict_set (dict_set d k v) k v' = dict_set d k v'.
Proof.
  induction d as [|[k0 v0] d IH]; simpl.
  - by rewrite decide_True.
  - destruct (decide (k0 = k)) as [->|Hk]; simpl.
    + by rewrite decide_True.
    + by rewrite decide_False, IH.
Qed.

Lemma dict_get_None d k : dict_get d k = None ↔ k ∉ d.*1.
Proof.
  induction d as [|[k0 v0] d IH]; simpl.
  - split; [intros _; apply not_elem_of_nil | done].
  - rewrite not_elem_of_cons. destruct (decide (k0 = k)) as [->|Hk].
    + split; [done | by intros [? _]].
    + rewrite IH. split; [by intros ?; split | by intros [_ ?]].
Qed.

End DictFacts.

Section DefaultDictFacts.
Context {K A : Type} `{EqDecision K}.
Implicit Types (d : list (K * list A)) (k : K).

Lemma getitem_nil k : getitem ([] : list (K * list A)) k = [].
Proof. done. Qed.

Lemma getitem_set d k v : getitem (dict_set d k v) k = v.
Proof. unfold getitem. by rewrite dict_get_set. Qed.

Lemma getitem_extend d k data :
  getitem (dict_extend d k data) k = getitem d k ++ data.
Proof. unfold dict_extend. apply getitem_set. Qed.

Lemma dict_get_extend_ne d k k' data :
  k ≠ k' → dict_get (dict_extend d k data) k' = dict_get d k'.
Proof. intros. unfold dict_extend. by apply dict_get_set_ne. Qed.

Lemma dict_extend_extend d k a b :
  dict_extend (dict_extend d k a) k b = dict_extend d k (a ++ b).
Proof.
  unfold dict_extend at 1. rewrite getitem_extend.
  unfold dict_extend. by rewrite dict_set_set, (assoc_L (++)).
Qed.

Lemma extend_if_data_app d k a b :
  extend_if_data (extend_if_data d k a) k b = extend_if_data d k (a ++ b).
Proof.
  destruct a as [|x a]; [done|]. destruct b as [|y b]; simpl.
  - by rewrite app_nil_r.
  - by rewrite dict_extend_extend.
Qed.

Lemma getitem_extend_if_data d k data :
  getitem (extend_if_data d k data) k = getitem d k ++ data.
Proof.
  destruct data; simpl; [by rewrite app_nil_r | apply getitem_extend].
Qed.

Lemma dict_get_extend_if_data_ne d k k' data :
  k ≠ k' → dict_get (extend_if_data d k data) k' = dict_get d k'.
Proof.
  intros. destruct data; simpl; [done | by apply dict_get_extend_ne].
Qed.

(** The key of [extend_if_data] is there when it was, or when there is data. *)
Lemma dict_get_extend_if_data_is_Some d k data :
  is_Some (dict_get (extend_if_data d k data) k) ↔
  is_Some (dict_get d k) ∨ data ≠ [].
Proof.
  destruct data as [|x data]; simpl.
  - split; [by left | by intros [?|?]].
  - unfold dict_extend. rewrite dict_get_set. split; [by right | eauto].
Qed.

End DefaultDictFacts.

(** ** The daylight filter *)

Section DaylightFilter.
Context {height : Type}.
Implicit Types (rs : list (list (option time))) (r : reading height).
Implicit Types (acc : list (date * list (reading height))).

Lemma in_daylight_window rs i sr ss rest t :
  rs !! i = Some (Some sr :: Some ss :: rest) →
  in_daylight (Some rs) i (Some t) = Ok (time_le sr t && time_le t ss).
Proof.
  intros Hw. unfold in_daylight. simpl. rewrite Hw. simpl.
  by destruct (time_le sr t).
Qed.

Lemma keep_reading_window rs i sr ss rest dt acc r :
  rs !! i = Some (Some sr :: Some ss :: rest) → is_Some r.1.1 →
  keep_reading (Some rs) i dt acc r =
    Ok (extend_if_data acc dt (List.filter (in_window sr ss) [r])).
Proof.
  intros Hw [t Ht]. destruct r as [[tt v] u]. simpl in Ht. subst tt.
  unfold keep_reading. rewrite (in_daylight_window _ _ _ _ _ _ Hw).
  simpl. unfold in_window. simpl. by destruct (time_le sr t && time_le t ss).
Qed.

(** The inner loop over the readings of one day. *)
Lemma keep_day_window rs i sr ss rest dt tide_data acc :
  rs !! i = Some (Some sr :: Some ss :: rest) →
  Forall (λ r, is_Some r.1.1) tide_data →
  for_each (keep_reading (Some rs) i dt) tide_data acc =
    Ok (extend_if_data acc dt (List.filter (in_window sr ss) tide_data)).
Proof.
  intros Hw Hall. revert acc.
  induction Hall as [|r tide_data Hr Hall IH]; intros acc; [done|].
  cbn [for_each]. rewrite (keep_reading_window _ _ _ _ _ _ _ _ Hw Hr).
  cbn [mbind result_bind]. rewrite IH, extend_if_data_app.
  simpl. by destruct (in_window sr ss r).
Qed.

Lemma filter_loop_window rs items :
  ∀ k acc,
  NoDup items.*1 →
  (∀ i dt tide_data, items !! i = Some (dt, tide_data) →
     ∃ sr ss rest, rs !! (k + i) = Some (Some sr :: Some ss :: rest) ∧
                   Forall (λ r, is_Some r.1.1) tide_data) →
  ∃ filtered,
    filter_loop (Some rs) items k acc = Ok filtered ∧
    (∀ dt, dt ∉ items.*1 → dict_get filtered dt = dict_get acc dt) ∧
    (∀ i dt tide_data sr ss rest,
       items !! i = Some (dt, tide_data) →
       rs !! (k + i) = Some (Some sr :: Some ss :: rest) →
       getitem filtered dt =
         getitem acc dt ++ List.filter (in_window sr ss) tide_data).
Proof.
  induction items as [|[dt0 td0] items IH]; intros k acc Hnd Hwin.
  - exists acc. split; [done|]. split; [done|]. intros i ? ? ? ? ? Hi. done.
  - apply NoDup_cons in Hnd as [Hfresh Hnd].
    destruct (Hwin 0 dt0 td0 eq_refl) as (sr0 & ss0 & rest0 & Hw0 & Hall0).
    rewrite Nat.add_0_r in Hw0.
    cbn [filter_loop]. rewrite (keep_day_window _ _ _ _ _ dt0 _ acc Hw0 Hall0).
    cbn [mbind result_bind].
    destruct (IH (S k)
                (extend_if_data acc dt0
                   (List.filter (in_window sr0 ss0) td0)) Hnd)
      as (filtered & Hrun & Hother & Hdays).
    { intros i dt td Hi. rewrite Nat.add_succ_l, <- Nat.add_succ_r.
      exact (Hwin (S i) dt td Hi). }
    exists filtered. split; [done|]. split.
    + intros dt [Hne Hdt]%not_elem_of_cons.
      rewrite Hother by done. by apply dict_get_extend_if_data_ne.
    + intros [|i] dt td sr ss rest Hi Hw.
      * simpl in Hi. injection Hi as <- <-.
        rewrite Nat.add_0_r, Hw0 in Hw. injection Hw as <- <- <-.
        unfold getitem at 1. rewrite Hother by done.
        apply getitem_extend_if_data.
      * simpl in Hi. rewrite Nat.add_succ_r, <- Nat.add_succ_l in Hw.
        rewrite (Hdays i dt td sr ss rest Hi Hw). f_equal.
        unfold getitem. rewrite dict_get_extend_if_data_ne; [done|].
        intros ->. apply Hfresh. apply list_elem_of_fmap.
        exists (dt, td). split; [done|]. by eapply list_elem_of_lookup_2.
Qed.

Lemma in_window_sunrise sr ss r :
  r.1.1 = Some sr → time_le sr ss = true → in_window sr ss r = true.
Proof. intros Hr Hle. unfold in_window. by rewrite Hr, time_le_refl, Hle. Qed.

Lemma in_window_sunset sr ss r :
  r.1.1 = Some ss → time_le sr ss = true → in_window sr ss r = true.
Proof. intros Hr Hle. unfold in_window. by rewrite Hr, time_le_refl, Hle. Qed.

Lemma in_window_before sr ss r t :
  r.1.1 = Some t → valid_time t → valid_time sr →
  (to_micros t < to_micros sr)%N → in_window sr ss r = false.
Proof.
  intros Hr Ht Hsr Hlt. unfold in_window. rewrite Hr.
  destruct (time_le sr t) eqn:E; [|done].
  apply time_le_micros in E; [lia|done..].
Qed.

Lemma in_window_after sr ss r t :
  r.1.1 = Some t → valid_time t → valid_time ss →
  (to_micros ss < to_micros t)%N → in_window sr ss r = false.
Proof.
  intros Hr Ht Hss Hlt. unfold in_window. rewrite Hr.
  destruct (time_le t ss) eqn:E; [|by rewrite andb_false_r].
  apply time_le_micros in E; [lia|done..].
Qed.

End DaylightFilter.

Section DaylightClaims.
Context {height : Type}.
Implicit Types (rs : list (list (option time))) (r : reading height).
Implicit Types (tides acc : list (date * list (reading height))).

(** C3. When every day has its sun window [sunrise, sunset] and every
    reading its time, the daylight filter keeps for each day exactly the
    readings with sunrise <= time <= sunset, in their order: a reading
    at sunrise or at sunset is kept (the window being non-empty), a
    reading one minute before sunrise or one minute after sunset is not. *)
Theorem daylight_filter_inclusive tides rs :
  NoDup tides.*1 →
  (∀ i dt tide_data, tides !! i = Some (dt, tide_data) →
     ∃ sr ss rest, rs !! i = Some (Some sr :: Some ss :: rest) ∧
                   Forall (λ r, is_Some r.1.1) tide_data) →
  ∃ filtered,
    daylight_filter tides (Some rs) = Ok filtered ∧
    ∀ i dt tide_data sr ss rest,
      tides !! i = Some (dt, tide_data) →
      rs !! i = Some (Some sr :: Some ss :: rest) →
      getitem filtered dt = List.filter (in_window sr ss) tide_data ∧
      (∀ r, r ∈ tide_data → time_le sr ss = true →
            r.1.1 = Some sr ∨ r.1.1 = Some ss → r ∈ getitem filtered dt) ∧
      (∀ r t, r.1.1 = Some t →
              valid_time t → valid_time sr → valid_time ss →
              (to_micros t + one_minute = to_micros sr ∨
               to_micros t = to_micros ss + one_minute)%N →
              r ∉ getitem filtered dt).
Proof.
  intros Hnd Hwin.
  destruct (filter_loop_window rs tides 0 [] Hnd Hwin)
    as (filtered & Hrun & _ & Hdays).
  exists filtered. split; [done|].
  intros i dt tide_data sr ss rest Hi Hw.
  rewrite (Hdays i dt tide_data sr ss rest Hi Hw). simpl.
  split; [done|]. split.
  - intros r Hr Hle Hat. apply list_elem_of_In, filter_In.
    split; [by apply list_elem_of_In|].
    destruct Hat; [by apply in_window_sunrise | by apply in_window_sunset].
  - intros r t Ht Hvt Hvsr Hvss Hout [_ Hin]%list_elem_of_In%filter_In.
    unfold one_minute in Hout. destruct Hout as [Hout|Hout].
    + rewrite (in_window_before sr ss r t) in Hin; [done..|lia].
    + rewrite (in_window_after sr ss r t) in Hin; [done..|lia].
Qed.

(** The loop over a list of days in two parts. *)
Lemma filter_loop_app rso pre post k acc :
  filter_loop rso (pre ++ post) k acc =
    (acc' ← filter_loop rso pre k acc;
     filter_loop rso post (k + length pre) acc').
Proof.
  revert k acc. induction pre as [|[dt td] pre IH]; intros k acc.
  - simpl. by rewrite Nat.add_0_r.
  - cbn [app filter_loop].
    destruct (for_each _ td acc) as [acc1|e]; [|done].
    cbn [mbind result_bind]. rewrite IH. simpl.
    by rewrite Nat.add_succ_r.
Qed.

Lemma in_daylight_missing rs i t :
  length rs ≤ i → in_daylight (Some rs) i t = Raise IndexError.
Proof.
  intros Hi. unfold in_daylight. simpl.
  by rewrite (lookup_ge_None_2 rs i Hi).
Qed.

Lemma keep_reading_missing rs i dt acc r :
  length rs ≤ i → keep_reading (Some rs) i dt acc r = Raise IndexError.
Proof.
  intros Hi. destruct r as [[t v] u]. unfold keep_reading.
  by rewrite in_daylight_missing.
Qed.

Lemma in_daylight_surplus rs extra i t b :
  in_daylight (Some rs) i t = Ok b →
  in_daylight (Some (rs ++ extra)) i t = Ok b.
Proof.
  unfold in_daylight. simpl. intros H.
  destruct (rs !! i) as [w|] eqn:Hw; [|done].
  by rewrite (lookup_app_l_Some _ _ _ _ Hw).
Qed.

Lemma keep_reading_surplus rs extra i dt acc r acc' :
  keep_reading (Some rs) i dt acc r = Ok acc' →
  keep_reading (Some (rs ++ extra)) i dt acc r = Ok acc'.
Proof.
  destruct r as [[t v] u]. unfold keep_reading.
  destruct (in_daylight (Some rs) i t) as [b|] eqn:E; [|done].
  by rewrite (in_daylight_surplus _ extra _ _ _ E).
Qed.

Lemma keep_day_surplus rs extra i dt tide_data :
  ∀ acc acc',
  for_each (keep_reading (Some rs) i dt) tide_data acc = Ok acc' →
  for_each (keep_reading (Some (rs ++ extra)) i dt) tide_data acc = Ok acc'.
Proof.
  induction tide_data as [|r tide_data IH]; intros acc acc'; [done|].
  cbn [for_each].
  destruct (keep_reading (Some rs) i dt acc r) as [acc1|] eqn:E; [|done].
  rewrite (keep_reading_surplus _ extra _ _ _ _ _ E). apply IH.
Qed.

Lemma filter_loop_surplus rs extra items :
  ∀ k acc filtered,
  filter_loop (Some rs) items k acc = Ok filtered →
  filter_loop (Some (rs ++ extra)) items k acc = Ok filtered.
Proof.
  induction items as [|[dt td] items IH]; intros k acc filtered; [done|].
  cbn [filter_loop].
  destruct (for_each (keep_reading (Some rs) k dt) td acc) as [acc1|] eqn:E;
    [|done].
  rewrite (keep_day_surplus _ extra _ _ _ _ _ E). apply IH.
Qed.

Lemma filter_loop_no_readings rso items :
  ∀ k acc,
  Forall (λ it, it.2 = []) items → filter_loop rso items k acc = Ok acc.
Proof.
  induction items as [|[dt td] items IH]; intros k acc Hall; [done|].
  apply Forall_cons in Hall as [Htd Hall]. simpl in Htd. subst td.
  simpl. by apply IH.
Qed.

(** C6 as the code has it.  The filter compares no lengths and has no
    alignment error of its own.  A day with a reading whose index is
    past the end of the sun windows raises [IndexError], once the days
    before it are filtered; sun windows in surplus change nothing; days
    without readings are passed over whatever the sun windows are. *)
Theorem daylight_filter_unchecked tides :
  (∀ rs pre dt r tide_data post acc,
     tides = pre ++ (dt, r :: tide_data) :: post →
     length rs ≤ length pre →
     daylight_filter pre (Some rs) = Ok acc →
     daylight_filter tides (Some rs) = Raise IndexError) ∧
  (∀ rs extra filtered,
     daylight_filter tides (Some rs) = Ok filtered →
     daylight_filter tides (Some (rs ++ extra)) = Ok filtered) ∧
  (∀ rso, Forall (λ it, it.2 = []) tides → daylight_filter tides rso = Ok []).
Proof.
  split; [|split].
  - intros rs pre dt r tide_data post acc -> Hlen Hpre.
    unfold daylight_filter in *. rewrite filter_loop_app, Hpre.
    cbn [mbind result_bind filter_loop for_each].
    by rewrite keep_reading_missing.
  - intros rs extra filtered. apply filter_loop_surplus.
  - intros rso. apply filter_loop_no_readings.
Qed.

End DaylightClaims.

(** ** Sunrise and sunset *)

Section RiseAndSet.
Context (strptime_time : string → option time).

Lemma sun_rows_loop_first pre tr post :
  Forall (λ r, Soup.find_all "td" (Some "tide-table__part--sun") r = []) pre →
  Soup.find_all "td" (Some "tide-table__part--sun") tr ≠ [] →
  sun_rows_loop strptime_time (pre ++ tr :: post) =
    Some <$> sun_row strptime_time
               (Soup.find_all "td" (Some "tide-table__part--sun") tr).
Proof.
  intros Hpre Htr. induction Hpre as [|r pre Hr Hpre IH].
  - simpl. by destruct (Soup.find_all "td" _ tr).
  - simpl. by rewrite Hr.
Qed.

Lemma sun_rows_loop_none trs :
  Forall (λ r, Soup.find_all "td" (Some "tide-table__part--sun") r = []) trs →
  sun_rows_loop strptime_time trs = Ok None.
Proof.
  induction 1 as [|r trs Hr Htrs IH]; [done|]. simpl. by rewrite Hr.
Qed.

Lemma comprehension_div_times divs :
  comprehension
    (λ div, parse_time_str strptime_time (PyStr.strip (Soup.text div))) divs =
  Ok (map (λ div,
         match parse_time_str strptime_time (PyStr.strip (Soup.text div)) with
         | Ok o => o
         | Raise _ => None
         end) divs).
Proof.
  induction divs as [|d divs IH]; [done|]. simpl.
  destruct (parse_time_str_total strptime_time (PyStr.strip (Soup.text d)))
    as [o ->].
  simpl. by rewrite IH.
Qed.

Lemma later_windows_cons td tds :
  later_windows strptime_time (td :: tds) =
    later_windows strptime_time [td] ++ later_windows strptime_time tds.
Proof. unfold later_windows. simpl. by rewrite app_nil_r. Qed.

Lemma sun_cell_later sr ss ts td :
  sun_cell strptime_time (SunState ts (Some sr) (Some ss)) td =
    Ok (SunState (ts ++ later_windows strptime_time [td]) (Some sr) (Some ss)).
Proof.
  unfold sun_cell, later_windows. cbn [flat_map sunrise sunset times_].
  destruct (decide (Soup.text td = "")) as [E|E].
  - by rewrite !app_nil_r.
  - rewrite comprehension_div_times. cbn [mbind result_bind].
    fold (div_times strptime_time td).
    destruct (bool_decide (div_times strptime_time td ≠ []) &&
              bool_decide (div_times strptime_time td ≠ [None; None]));
      by rewrite ?app_nil_r.
Qed.

Lemma sun_cell_sunrise ts ss td t :
  Soup.text td ≠ "" → first_div_time strptime_time td = Ok t →
  sun_cell strptime_time (SunState ts None ss) td = Ok (SunState ts t ss).
Proof.
  intros Htext Ht. unfold sun_cell. cbn [sunrise sunset times_].
  rewrite decide_False by done. by rewrite Ht.
Qed.

Lemma sun_cell_sunset ts sr td t :
  Soup.text td ≠ "" → first_div_time strptime_time td = Ok t →
  sun_cell strptime_time (SunState ts (Some sr) None) td =
    Ok (SunState ts (Some sr) t).
Proof.
  intros Htext Ht. unfold sun_cell. cbn [sunrise sunset times_].
  rewrite decide_False by done. by rewrite Ht.
Qed.

Lemma sun_cells_later sr ss tds :
  ∀ ts,
  for_each (sun_cell strptime_time) tds (SunState ts (Some sr) (Some ss)) =
    Ok (SunState (ts ++ later_windows strptime_time tds) (Some sr) (Some ss)).
Proof.
  induction tds as [|td tds IH]; intros ts.
  - simpl. by rewrite app_nil_r.
  - cbn [for_each]. rewrite sun_cell_later. cbn [mbind result_bind].
    by rewrite IH, (later_windows_cons td tds), (assoc_L (++)).
Qed.

(** A row that starts with the sunrise cell and the sunset cell. *)
Lemma sun_row_regular c1 c2 tds sr ss :
  Soup.text c1 ≠ "" → first_div_time strptime_time c1 = Ok (Some sr) →
  Soup.text c2 ≠ "" → first_div_time strptime_time c2 = Ok (Some ss) →
  sun_row strptime_time (c1 :: c2 :: tds) =
    Ok ([Some sr; Some ss] :: later_windows strptime_time tds).
Proof.
  intros T1 H1 T2 H2. unfold sun_row. cbn [for_each].
  rewrite (sun_cell_sunrise [] None c1 (Some sr) T1 H1).
  cbn [mbind result_bind].
  rewrite (sun_cell_sunset [] sr c2 (Some ss) T2 H2).
  cbn [mbind result_bind].
  by rewrite sun_cells_later.
Qed.

(** C4 as the code has it.  [get_rise_and_set] returns what the first
    row with sun cells gives, whatever rows follow it: for a row that
    starts with the sunrise cell and the sunset cell, the window of the
    first day and then the windows of the later cells in order.  For a
    table without such a row it returns [None], no sequence at all. *)
Theorem get_rise_and_set_first_row (table : node) :
  (∀ pre tr post,
     Soup.find_all "tr" None table = pre ++ tr :: post →
     Forall (λ r, Soup.find_all "td" (Some "tide-table__part--sun") r = [])
            pre →
     Soup.find_all "td" (Some "tide-table__part--sun") tr ≠ [] →
     get_rise_and_set strptime_time table =
       Some <$> sun_row strptime_time
                  (Soup.find_all "td" (Some "tide-table__part--sun") tr) ∧
     ∀ c1 c2 tds sr ss,
       Soup.find_all "td" (Some "tide-table__part--sun") tr = c1 :: c2 :: tds →
       Soup.text c1 ≠ "" → first_div_time strptime_time c1 = Ok (Some sr) →
       Soup.text c2 ≠ "" → first_div_time strptime_time c2 = Ok (Some ss) →
       get_rise_and_set strptime_time table =
         Ok (Some ([Some sr; Some ss] :: later_windows strptime_time tds))) ∧
  (Forall (λ r, Soup.find_all "td" (Some "tide-table__part--sun") r = [])
          (Soup.find_all "tr" None table) →
   get_rise_and_set strptime_time table = Ok None).
Proof.
  split.
  - intros pre tr post Htrs Hpre Htr.
    assert (get_rise_and_set strptime_time table =
            Some <$> sun_row strptime_time
                       (Soup.find_all "td" (Some "tide-table__part--sun") tr))
      as Hrun.
    { unfold get_rise_and_set. rewrite Htrs. by apply sun_rows_loop_first. }
    split; [done|].
    intros c1 c2 tds sr ss Hcells T1 H1 T2 H2.
    rewrite Hrun, Hcells, (sun_row_regular c1 c2 tds sr ss T1 H1 T2 H2). done.
  - intros Hnone. unfold get_rise_and_set. by apply sun_rows_loop_none.
Qed.

End RiseAndSet.

(** ** The tide rows *)

Section GetTides.
Context (strptime_time : string → option time).
Context {height : Type} (py_float : string → option height).
Implicit Types (tides : list (date * list (reading height))).
Implicit Types (tds cells : list node) (days used unused : list (date * Z)).

Lemma get_data_cell_readings td :
  is_Ok (get_data strptime_time py_float td) →
  get_data strptime_time py_float td =
    Ok (cell_readings strptime_time py_float td).
Proof. intros [data H]. unfold cell_readings. by rewrite H. Qed.

Lemma get_data_lookup tds idx td :
  Forall (λ td, is_Ok (get_data strptime_time py_float td)) tds →
  tds !! idx = Some td →
  get_data strptime_time py_float td =
    Ok (cell_readings strptime_time py_float td).
Proof.
  intros Hok Htd. apply get_data_cell_readings.
  exact (Forall_lookup_1 _ _ _ _ Hok Htd).
Qed.

Lemma cells_needed_cons dt cols days :
  cells_needed ((dt, cols) :: days) = cells_consumed cols + cells_needed days.
Proof. done. Qed.

(** The [for] loop over the cells of a day with a column count. *)
Lemma cols_loop_ok tds dt n :
  ∀ idx tides,
  idx + n ≤ length tds →
  Forall (λ td, is_Ok (get_data strptime_time py_float td)) tds →
  cols_loop strptime_time py_float n tds dt tides idx =
    Ok (extend_if_data tides dt
          (readings_of strptime_time py_float (take n (drop idx tds))),
        idx + n).
Proof.
  induction n as [|n IH]; intros idx tides Hlen Hok.
  - simpl. by rewrite Nat.add_0_r.
  - cbn [cols_loop].
    destruct (lookup_lt_is_Some_2 tds idx) as [td Htd]; [lia|].
    rewrite Htd. cbn [or_raise mbind result_bind].
    rewrite (get_data_lookup tds idx td Hok Htd).
    cbn [mbind result_bind].
    rewrite IH by (done || lia).
    rewrite extend_if_data_app, (drop_S _ _ _ Htd), Nat.add_succ_r. done.
Qed.

Lemma assign_days_no_cells used :
  ∀ cells tides,
  cells_needed used = 0 →
  assign_days strptime_time py_float (day_cells used cells) tides = tides.
Proof.
  induction used as [|[dt c] used IH]; intros cells tides Hsum; [done|].
  rewrite cells_needed_cons in Hsum.
  assert (cells_consumed c = 0) as Hc by lia.
  cbn [day_cells assign_days]. rewrite Hc.
  unfold cells_consumed in Hc. destruct (c =? 0)%Z; [done|].
  rewrite take_0. simpl. apply IH. lia.
Qed.

(** The [while] loop when the cells of the row are those of the first
    days [used]. *)
Lemma row_loop_ok tds unused used :
  ∀ idx tides,
  cells_needed used + idx = length tds →
  Forall (λ td, is_Ok (get_data strptime_time py_float td)) tds →
  row_loop strptime_time py_float (used ++ unused) tds idx tides =
    Ok (assign_days strptime_time py_float
          (day_cells used (drop idx tds)) tides).
Proof.
  induction used as [|[dt c] used IH]; intros idx tides Hsum Hok.
  - simpl in *. destruct unused as [|[??]?]; cbn [row_loop];
      by rewrite decide_True
        by (unfold cells_needed in Hsum; simpl in Hsum; lia).
  - cbn [app row_loop]. rewrite cells_needed_cons in Hsum.
    destruct (decide (length tds ≤ idx)) as [Hge|Hlt].
    { rewrite assign_days_no_cells; [done|]. rewrite cells_needed_cons. lia. }
    destruct (lookup_lt_is_Some_2 tds idx) as [td Htd]; [lia|].
    rewrite Htd. cbn [or_raise mbind result_bind].
    cbn [day_cells assign_days]. unfold cells_consumed in *.
    destruct (Z.eqb_spec c 0) as [->|Hc].
    + rewrite (get_data_lookup tds idx td Hok Htd).
      cbn [mbind result_bind]. rewrite IH by (done || lia).
      rewrite (drop_S _ _ _ Htd). simpl. by rewrite app_nil_r, drop_0.
    + rewrite cols_loop_ok by (done || lia). cbn [mbind result_bind].
      rewrite IH by (done || lia). by rewrite drop_drop.
Qed.

(** The [while] loop when the row has more cells than the days account
    for: the days run out first. *)
Lemma row_loop_overflow tds days :
  ∀ idx tides,
  cells_needed days + idx < length tds →
  Forall (λ td, is_Ok (get_data strptime_time py_float td)) tds →
  row_loop strptime_time py_float days tds idx tides = Raise IndexError.
Proof.
  induction days as [|[dt c] days IH]; intros idx tides Hsum Hok.
  - cbn [row_loop]. rewrite decide_False by lia.
    destruct (lookup_lt_is_Some_2 tds idx) as [td Htd]; [lia|].
    by rewrite Htd.
  - cbn [row_loop]. rewrite cells_needed_cons in Hsum.
    rewrite decide_False by lia.
    destruct (lookup_lt_is_Some_2 tds idx) as [td Htd]; [lia|].
    rewrite Htd. cbn [or_raise mbind result_bind].
    unfold cells_consumed in *.
    destruct (Z.eqb_spec c 0) as [->|Hc].
    + rewrite (get_data_lookup tds idx td Hok Htd).
      cbn [mbind result_bind]. apply IH; [lia|done].
    + rewrite cols_loop_ok by (done || lia). cbn [mbind result_bind].
      apply IH; [lia|done].
Qed.

(** The loop over the rows stops at the first row with a low tide. *)
Lemma rows_loop_first pre tr post days tides :
  Forall (λ r, has_tide_info r "low" = Ok false) pre →
  has_tide_info tr "low" = Ok true →
  rows_loop strptime_time py_float (pre ++ tr :: post) days tides =
    Some <$> row_loop strptime_time py_float days
               (Soup.find_all "td" None tr) 0 tides.
Proof.
  intros Hpre Htr. induction Hpre as [|r pre Hr Hpre IH].
  - simpl. by rewrite Htr.
  - simpl. by rewrite Hr.
Qed.

Lemma rows_loop_none trs days tides :
  Forall (λ r, has_tide_info r "low" = Ok false) trs →
  rows_loop strptime_time py_float trs days tides = Ok None.
Proof.
  induction 1 as [|r trs Hr Htrs IH]; [done|]. simpl. by rewrite Hr.
Qed.

(** *** The cells of the days *)

Lemma day_cells_dates used : ∀ cells, (day_cells used cells).*1.*1 = used.*1.
Proof.
  induction used as [|[dt c] used IH]; intros cells; [done|].
  simpl. by rewrite IH.
Qed.

Lemma day_cells_length used :
  ∀ cells dt cols cs,
  cells_needed used ≤ length cells →
  (dt, cols, cs) ∈ day_cells used cells →
  (dt, cols) ∈ used ∧ length cs = cells_consumed cols.
Proof.
  induction used as [|[dt0 c0] used IH]; intros cells dt cols cs Hlen Hin.
  - by apply elem_of_nil in Hin.
  - rewrite cells_needed_cons in Hlen.
    cbn [day_cells] in Hin. apply elem_of_cons in Hin as [Heq|Hin].
    + injection Heq as -> -> ->. split; [left|].
      rewrite length_take. lia.
    + destruct (IH (drop (cells_consumed c0) cells) dt cols cs) as [? ?];
        [rewrite length_drop; lia | done |].
      split; [by right | done].
Qed.

Lemma day_cells_concat used :
  ∀ cells,
  cells_needed used = length cells →
  concat (day_cells used cells).*2 = cells.
Proof.
  induction used as [|[dt0 c0] used IH]; intros cells Hlen.
  - destruct cells; [done|]. by unfold cells_needed in Hlen.
  - rewrite cells_needed_cons in Hlen. simpl.
    rewrite IH by (rewrite length_drop; lia). apply take_drop.
Qed.

(** *** The dictionary of a row *)

Lemma assign_days_other dc :
  ∀ tides dt,
  dt ∉ dc.*1.*1 →
  dict_get (assign_days strptime_time py_float dc tides) dt = dict_get tides dt.
Proof.
  induction dc as [|[[dt0 c0] cs0] dc IH]; intros tides dt Hdt; [done|].
  simpl in Hdt. apply not_elem_of_cons in Hdt as [Hne Hdt].
  cbn [assign_days]. rewrite IH by done.
  destruct (c0 =? 0)%Z.
  - by apply dict_get_set_ne.
  - by apply dict_get_extend_if_data_ne.
Qed.

Lemma assign_days_getitem dc :
  ∀ tides dt cols cells,
  NoDup dc.*1.*1 →
  (∀ dt', dt' ∈ dc.*1.*1 → getitem tides dt' = []) →
  (dt, cols, cells) ∈ dc →
  getitem (assign_days strptime_time py_float dc tides) dt =
    readings_of strptime_time py_float cells.
Proof.
  induction dc as [|[[dt0 c0] cs0] dc IH];
    intros tides dt cols cells Hnd Hfresh Hin.
  - by apply elem_of_nil in Hin.
  - simpl in Hnd. apply NoDup_cons in Hnd as [Hdt0 Hnd].
    cbn [assign_days]. apply elem_of_cons in Hin as [Heq|Hin].
    + injection Heq as -> -> ->.
      unfold getitem. rewrite assign_days_other by done.
      fold (getitem (if (c0 =? 0)%Z
                     then dict_set tides dt0
                            (readings_of strptime_time py_float cs0)
                     else extend_if_data tides dt0
                            (readings_of strptime_time py_float cs0)) dt0).
      destruct (c0 =? 0)%Z.
      * apply getitem_set.
      * rewrite getitem_extend_if_data, Hfresh; [done|]. simpl. left.
    + apply (IH _ dt cols cells Hnd); [|done].
      intros dt' Hdt'. assert (dt0 ≠ dt') as Hne by (by intros ->).
      unfold getitem.
      destruct (c0 =? 0)%Z.
      * rewrite dict_get_set_ne by done. apply Hfresh. simpl. by right.
      * rewrite dict_get_extend_if_data_ne by done. apply Hfresh. simpl.
        by right.
Qed.

Lemma assign_days_keys dc :
  ∀ tides dt,
  is_Some (dict_get (assign_days strptime_time py_float dc tides) dt) ↔
  is_Some (dict_get tides dt) ∨
  ∃ cols cells, (dt, cols, cells) ∈ dc ∧
                (cols = 0%Z ∨ readings_of strptime_time py_float cells ≠ []).
Proof.
  induction dc as [|[[dt0 c0] cs0] dc IH]; intros tides dt.
  - simpl. split; [by left|]. intros [?|(? & ? & Hin & _)]; [done|].
    by apply elem_of_nil in Hin.
  - cbn [assign_days]. rewrite IH. clear IH.
    assert (is_Some (dict_get
              (if (c0 =? 0)%Z
               then dict_set tides dt0 (readings_of strptime_time py_float cs0)
               else extend_if_data tides dt0
                      (readings_of strptime_time py_float cs0)) dt) ↔
            is_Some (dict_get tides dt) ∨
            (dt = dt0 ∧
             (c0 = 0%Z ∨ readings_of strptime_time py_float cs0 ≠ [])))
      as ->.
    { destruct (decide (dt0 = dt)) as [->|Hne].
      - destruct (Z.eqb_spec c0 0) as [->|Hc].
        + rewrite dict_get_set. split; [right; eauto | eauto].
        + rewrite dict_get_extend_if_data_is_Some.
          split; [intros [?|?]; eauto | intros [?|[_ [?|?]]]; eauto; done].
      - destruct (c0 =? 0)%Z.
        + rewrite dict_get_set_ne by done.
          split; [by left | intros [?|[? _]]; [done | by subst]].
        + rewrite dict_get_extend_if_data_ne by done.
          split; [by left | intros [?|[? _]]; [done | by subst]]. }
    split.
    + intros [[?|[-> ?]]|(cols & cells & Hin & ?)].
      * by left.
      * right. exists c0, cs0. split; [left | done].
      * right. exists cols, cells. split; [by right | done].
    + intros [?|(cols & cells & Hin & ?)]; [by left; left|].
      apply elem_of_cons in Hin as [Heq|Hin].
      * injection Heq as -> -> ->. left. right. done.
      * right. eauto.
Qed.

End GetTides.

Section GetTidesClaims.
Context (strptime_time : string → option time).
Context {height : Type} (py_float : string → option height).
Implicit Types (tides : list (date * list (reading height))).
Implicit Types (days used unused : list (date * Z)).

Lemma dict_get_is_Some tides dt : is_Some (dict_get tides dt) ↔ dt ∈ tides.*1.
Proof.
  rewrite <- not_eq_None_Some, dict_get_None.
  split; [apply dec_stable | by intros ? ?].
Qed.

(** [get_tides] when the cells of the first row with a low tide are
    those of the first days [used]. *)
Lemma get_tides_assign table days used unused pre tr post :
  Soup.find_all "tr" (Some "tide-table__separator") table = pre ++ tr :: post →
  Forall (λ r, has_tide_info r "low" = Ok false) pre →
  has_tide_info tr "low" = Ok true →
  days = used ++ unused →
  cells_needed used = length (Soup.find_all "td" None tr) →
  Forall (λ td, is_Ok (get_data strptime_time py_float td))
         (Soup.find_all "td" None tr) →
  get_tides strptime_time py_float table days =
    Ok (Some (assign_days strptime_time py_float
                (day_cells used (Soup.find_all "td" None tr)) [])).
Proof.
  intros Htrs Hpre Htr -> Hsum Hok. unfold get_tides.
  rewrite Htrs, (rows_loop_first _ _ pre tr post _ _ Hpre Htr).
  rewrite (row_loop_ok strptime_time py_float _ unused used 0 []);
    [done| |done].
  by rewrite Nat.add_0_r.
Qed.

(** C1 as the code has it.  [get_tides] passes over the separator rows
    without a low tide, processes the first row that has one, and
    returns: the rows after it are not read.  When the cells of that row
    are those of the first days [used], day after day a column count of
    0 takes one cell and a column count N takes N cells in a row, and
    the readings of a day are those of its cells in cell order. *)
Theorem get_tides_first_low_row table days used unused pre tr post :
  Soup.find_all "tr" (Some "tide-table__separator") table = pre ++ tr :: post →
  Forall (λ r, has_tide_info r "low" = Ok false) pre →
  has_tide_info tr "low" = Ok true →
  days = used ++ unused →
  NoDup used.*1 →
  cells_needed used = length (Soup.find_all "td" None tr) →
  Forall (λ td, is_Ok (get_data strptime_time py_float td))
         (Soup.find_all "td" None tr) →
  ∃ tides,
    get_tides strptime_time py_float table days = Ok (Some tides) ∧
    concat (day_cells used (Soup.find_all "td" None tr)).*2 =
      Soup.find_all "td" None tr ∧
    ∀ dt cols cells,
      (dt, cols, cells) ∈ day_cells used (Soup.find_all "td" None tr) →
      length cells = cells_consumed cols ∧
      getitem tides dt = readings_of strptime_time py_float cells.
Proof.
  intros Htrs Hpre Htr Hdays Hnd Hsum Hok.
  eexists. split; [by eapply get_tides_assign|].
  split; [by apply day_cells_concat|].
  intros dt cols cells Hin. split.
  - eapply day_cells_length; [|done]. lia.
  - apply (assign_days_getitem _ _ _ _ _ cols); [|done..].
    by rewrite day_cells_dates.
Qed.

(** C2 as the code has it.  When the first row with a low tide has more
    cells than the days account for, the days run out while cells
    remain and [get_tides] raises [IndexError]: nothing is returned. *)
Theorem get_tides_too_many_cells table days pre tr post :
  Soup.find_all "tr" (Some "tide-table__separator") table = pre ++ tr :: post →
  Forall (λ r, has_tide_info r "low" = Ok false) pre →
  has_tide_info tr "low" = Ok true →
  cells_needed days < length (Soup.find_all "td" None tr) →
  Forall (λ td, is_Ok (get_data strptime_time py_float td))
         (Soup.find_all "td" None tr) →
  get_tides strptime_time py_float table days = Raise IndexError.
Proof.
  intros Htrs Hpre Htr Hsum Hok. unfold get_tides.
  rewrite Htrs, (rows_loop_first _ _ pre tr post _ _ Hpre Htr).
  rewrite row_loop_overflow; [done| |done]. by rewrite Nat.add_0_r.
Qed.

(** C5 as the code has it.  With the days of [get_dates_from_table], and
    the cells of the first row with a low tide being those of the first
    days [used], every date in [used] with a column count of 0, or with
    a reading in one of its cells, is a key of the dictionary of
    [get_tides], and every key is a date in [used]: the dates of the
    days that the cells of the row do not reach are not keys. *)
Theorem get_tides_keys (fromisoformat : string → option date)
    (py_int : string → option Z) table days used unused pre tr post :
  get_dates_from_table fromisoformat py_int table = Ok days →
  Soup.find_all "tr" (Some "tide-table__separator") table = pre ++ tr :: post →
  Forall (λ r, has_tide_info r "low" = Ok false) pre →
  has_tide_info tr "low" = Ok true →
  days = used ++ unused →
  cells_needed used = length (Soup.find_all "td" None tr) →
  Forall (λ td, is_Ok (get_data strptime_time py_float td))
         (Soup.find_all "td" None tr) →
  ∃ tides,
    get_tides strptime_time py_float table days = Ok (Some tides) ∧
    (∀ dt cols cells,
       (dt, cols, cells) ∈ day_cells used (Soup.find_all "td" None tr) →
       cols = 0%Z ∨ readings_of strptime_time py_float cells ≠ [] →
       dt ∈ tides.*1) ∧
    (∀ dt, dt ∈ tides.*1 → dt ∈ used.*1).
Proof.
  intros _ Htrs Hpre Htr Hdays Hsum Hok.
  eexists. split; [by eapply get_tides_assign|]. split.
  - intros dt cols cells Hin Hkey.
    apply dict_get_is_Some, assign_days_keys. right. eauto.
  - intros dt Hdt. apply dict_get_is_Some, assign_days_keys in Hdt.
    destruct Hdt as [[? ?]|(cols & cells & Hin & _)]; [done|].
    rewrite <- (day_cells_dates used (Soup.find_all "td" None tr)).
    apply list_elem_of_fmap. exists (dt, cols). split; [done|].
    apply list_elem_of_fmap. exists (dt, cols, cells). done.
Qed.

End GetTidesClaims.

(** ** The sample pages *)

(** The end-to-end scenario of the specification. *)
Example extract_tides_scenario :
  Sample.extract_tides Sample.scenario =
    Ok [ (Sample.nov4, [(Sample.at_ 12 0, Sample.tenths 8, "ft")]);
         (Sample.nov5, [(Sample.at_ 6 30, Sample.tenths 10, "ft")]) ].
Proof. reflexivity. Qed.

(** Without a sun row the windows are [None], and the filter raises
    [TypeError] at the first reading. *)
Example extract_tides_no_sun_row :
  Sample.extract_tides Sample.no_sun_row = Raise TypeError.
Proof. reflexivity. Qed.

(** A day with a column count whose cells hold no reading gets no key. *)
Example get_tides_empty_second_day :
  Sample.get_tides Sample.empty_second_day Sample.scenario_days =
    Ok (Some [(Sample.nov4, [(Sample.at_ 5 45, Sample.tenths 12, "ft")])]).
Proof. reflexivity. Qed.

(** C1 fails as stated: the second row has a low tide cell with a
    reading, and no day of the dictionary of [get_tides] has it. *)
Lemma get_tides_second_row_unread :
  Soup.find_all "tr" (Some "tide-table__separator") Sample.two_low_rows =
    [Sample.first_low_row; Sample.second_low_row] ∧
  has_tide_info Sample.second_low_row "low" = Ok true ∧
  Sample.get_data (Sample.low_cell [Sample.group " 6:10PM" "0.3" "ft"]) =
    Ok [(Sample.at_ 18 10, Sample.tenths 3, "ft")] ∧
  Sample.get_tides Sample.two_low_rows [(Sample.nov4, 0%Z)] =
    Ok (Some [(Sample.nov4, [(Sample.at_ 5 45, Sample.tenths 12, "ft")])]) ∧
  ∀ dt, (Sample.at_ 18 10, Sample.tenths 3, "ft") ∉
        getitem [(Sample.nov4, [(Sample.at_ 5 45, Sample.tenths 12, "ft")])] dt.
Proof.
  do 4 (split; [reflexivity|]).
  intros dt. unfold getitem. simpl.
  destruct (decide (Sample.nov4 = dt)); simpl.
  - intros [?|?%elem_of_nil]%elem_of_cons; [discriminate|done].
  - apply not_elem_of_nil.
Qed.

(** C2 fails as stated: the row has two cells, the one day accounts for
    one, and [get_tides] raises instead of returning. *)
Lemma get_tides_wide_row_raises :
  Sample.get_dates_from_table Sample.wide_row = Ok [(Sample.nov4, 0%Z)] ∧
  Soup.find_all "tr" (Some "tide-table__separator") Sample.wide_row =
    [Sample.two_cell_row] ∧
  has_tide_info Sample.two_cell_row "low" = Ok true ∧
  length (Soup.find_all "td" None Sample.two_cell_row) = 2 ∧
  Sample.get_tides Sample.wide_row [(Sample.nov4, 0%Z)] = Raise IndexError.
Proof. repeat split; reflexivity. Qed.

(** C4 fails as stated: no row has a sun cell, and the result is [None],
    not the empty list. *)
Lemma get_rise_and_set_no_sun_row :
  Forall (λ tr, Soup.find_all "td" (Some "tide-table__part--sun") tr = [])
         (Soup.find_all "tr" None Sample.no_sun_row) ∧
  Sample.get_rise_and_set Sample.no_sun_row = Ok None ∧
  Sample.get_rise_and_set Sample.no_sun_row ≠ Ok (Some []).
Proof.
  split; [|split; [reflexivity | discriminate]].
  repeat constructor.
Qed.

(** C5 fails as stated: the header has the two days, the row has the
    one cell of the first, and the second day is not a key. *)
Lemma get_tides_short_row_key_missing :
  Sample.get_dates_from_table Sample.short_row = Ok Sample.scenario_days ∧
  Sample.nov5 ∈ Sample.scenario_days.*1 ∧
  Sample.get_tides Sample.short_row Sample.scenario_days =
    Ok (Some [(Sample.nov4, [(Sample.at_ 5 45, Sample.tenths 12, "ft")])]) ∧
  Sample.nov5 ∉ [(Sample.nov4, [(Sample.at_ 5 45, Sample.tenths 12, "ft")])].*1.
Proof.
  split; [reflexivity|]. split; [|split; [reflexivity|]].
  - simpl. right. left.
  - simpl. intros [?|?%elem_of_nil]%elem_of_cons; [discriminate|done].
Qed.

(** C6 fails as stated: with one day of tides and two sun windows the
    filter returns its result; with two days of tides and one sun
    window it raises [IndexError]. *)
Lemma daylight_filter_lengths_differ :
  length (take 1 Sample.scenario_tides) ≠ length Sample.scenario_windows ∧
  daylight_filter (take 1 Sample.scenario_tides)
    (Some Sample.scenario_windows) =
    Ok [(Sample.nov4, [(Sample.at_ 12 0, Sample.tenths 8, "ft")])] ∧
  length Sample.scenario_tides ≠ length (take 1 Sample.scenario_windows) ∧
  daylight_filter Sample.scenario_tides
    (Some (take 1 Sample.scenario_windows)) =
    Raise IndexError.
Proof. repeat split; (reflexivity || discriminate). Qed.

(** ** The theorems on the sample pages *)

Lemma get_data_cases_sample :
  Sample.get_data Sample.no_group = Ok [] ∧
  Sample.get_data Sample.one_group =
    Ok [(Sample.at_ 5 45, Sample.tenths 12, "ft")] ∧
  Sample.get_data Sample.two_groups =
    Ok [(Sample.at_ 5 45, Sample.tenths 12, "ft");
        (Sample.at_ 18 10, Sample.tenths 3, "ft")] ∧
  Sample.get_data Sample.half_cell =
    Ok [(Sample.at_ 5 45, Sample.tenths 12, "ft")].
Proof.
  split; [|split; [|split]].
  - apply (get_data_cases Lib.strptime_time Lib.py_float Sample.no_group).
    reflexivity.
  - edestruct (proj1 (proj2
        (get_data_cases Lib.strptime_time Lib.py_float Sample.one_group)))
      as (t & Ht & Hdata); [reflexivity..|].
    vm_compute in Ht. injection Ht as <-. exact Hdata.
  - edestruct (proj1 (proj2 (proj2
        (get_data_cases Lib.strptime_time Lib.py_float Sample.two_groups))))
      as (t1 & t2 & Ht1 & Ht2 & Hdata); [reflexivity..|].
    vm_compute in Ht1, Ht2. injection Ht1 as <-. injection Ht2 as <-.
    exact Hdata.
  - edestruct (proj2 (proj2 (proj2
        (get_data_cases Lib.strptime_time Lib.py_float Sample.half_cell)))
        (Sample.group " 5:45AM" "1.2" "ft")
        (Sample.group_no_height " 6:10PM" "ft"))
      as (t1 & Ht1 & Hdata); [reflexivity | reflexivity | reflexivity | |].
    + left. reflexivity.
    + vm_compute in Ht1. injection Ht1 as <-. exact Hdata.
Defined.

Lemma get_data_at_most_two_sample :
  Sample.get_data Sample.three_groups = Ok [].
Proof.
  apply (get_data_at_most_two Lib.strptime_time Lib.py_float
           Sample.three_groups);
    vm_compute; discriminate.
Defined.

Lemma daylight_filter_inclusive_scenario :
  ∃ filtered,
    daylight_filter Sample.scenario_tides (Some Sample.scenario_windows) =
      Ok filtered ∧
    ∀ i dt tide_data sr ss rest,
      Sample.scenario_tides !! i = Some (dt, tide_data) →
      Sample.scenario_windows !! i = Some (Some sr :: Some ss :: rest) →
      getitem filtered dt = List.filter (in_window sr ss) tide_data ∧
      (∀ r, r ∈ tide_data → time_le sr ss = true →
            r.1.1 = Some sr ∨ r.1.1 = Some ss → r ∈ getitem filtered dt) ∧
      (∀ r t, r.1.1 = Some t →
              valid_time t → valid_time sr → valid_time ss →
              (to_micros t + one_minute = to_micros sr ∨
               to_micros t = to_micros ss + one_minute)%N →
              r ∉ getitem filtered dt).
Proof.
  apply (daylight_filter_inclusive Sample.scenario_tides
           Sample.scenario_windows).
  - apply (bool_decide_unpack (NoDup [Sample.nov4; Sample.nov5])).
    vm_compute. exact I.
  - intros [|[|i]] dt tide_data Hi; simpl in Hi; [| |discriminate];
      injection Hi as <- <-; do 3 eexists; (split; [reflexivity|]);
      repeat constructor; eexists; reflexivity.
Defined.

Lemma daylight_filter_unchecked_scenario :
  daylight_filter Sample.scenario_tides
    (Some (take 1 Sample.scenario_windows)) =
    Raise IndexError ∧
  daylight_filter (take 1 Sample.scenario_tides)
    (Some (take 1 Sample.scenario_windows ++ drop 1 Sample.scenario_windows)) =
    Ok [(Sample.nov4, [(Sample.at_ 12 0, Sample.tenths 8, "ft")])] ∧
  daylight_filter [(Sample.nov4, []); (Sample.nov5, [])] None =
    Ok ([] : list (date * list (reading Q))).
Proof.
  split; [|split].
  - apply (proj1 (daylight_filter_unchecked Sample.scenario_tides)
             (take 1 Sample.scenario_windows) (take 1 Sample.scenario_tides)
             Sample.nov5 (Sample.at_ 6 30, Sample.tenths 10, "ft")
             [(Sample.at_ 18 0, Sample.tenths 9, "ft")] []
             [(Sample.nov4, [(Sample.at_ 12 0, Sample.tenths 8, "ft")])]).
    + reflexivity.
    + simpl. lia.
    + reflexivity.
  - apply (proj1 (proj2 (daylight_filter_unchecked
                           (take 1 Sample.scenario_tides)))).
    reflexivity.
  - apply (proj2 (proj2 (daylight_filter_unchecked
                           [(Sample.nov4, []); (Sample.nov5, [])]))).
    repeat constructor.
Defined.

Lemma get_rise_and_set_first_row_scenario :
  Sample.get_rise_and_set Sample.scenario = Ok (Some Sample.scenario_windows) ∧
  Sample.get_rise_and_set Sample.no_sun_row = Ok None.
Proof.
  split.
  - apply (proj2 (proj1 (get_rise_and_set_first_row Lib.strptime_time
                           Sample.scenario)
        [Sample.header_row] Sample.sun_tr [Sample.high_row; Sample.low_row]
        eq_refl ltac:(repeat constructor) ltac:(discriminate))
      (Sample.sun_cell1 " 6:00AM") (Sample.sun_cell1 " 5:30PM")
      [Sample.sun_cell2 " 6:01AM" " 5:29PM"] (Time 6 0 0 0) (Time 17 30 0 0));
      (reflexivity || discriminate).
  - apply (get_rise_and_set_first_row Lib.strptime_time Sample.no_sun_row).
    repeat constructor.
Defined.

Lemma get_tides_first_low_row_scenario :
  ∃ tides,
    Sample.get_tides Sample.scenario Sample.scenario_days = Ok (Some tides) ∧
    concat (day_cells Sample.scenario_days
              (Soup.find_all "td" None Sample.low_row)).*2 =
      Soup.find_all "td" None Sample.low_row ∧
    ∀ dt cols cells,
      (dt, cols, cells) ∈
        day_cells Sample.scenario_days
          (Soup.find_all "td" None Sample.low_row) →
      length cells = cells_consumed cols ∧
      getitem tides dt = readings_of Lib.strptime_time Lib.py_float cells.
Proof.
  apply (get_tides_first_low_row Lib.strptime_time Lib.py_float Sample.scenario
           Sample.scenario_days Sample.scenario_days []
           [Sample.high_row] Sample.low_row []).
  - reflexivity.
  - repeat constructor.
  - reflexivity.
  - reflexivity.
  - apply (bool_decide_unpack (NoDup [Sample.nov4; Sample.nov5])).
    vm_compute. exact I.
  - reflexivity.
  - repeat constructor; eexists; reflexivity.
Defined.

Lemma get_tides_too_many_cells_wide_row :
  Sample.get_tides Sample.wide_row [(Sample.nov4, 0%Z)] = Raise IndexError.
Proof.
  apply (get_tides_too_many_cells Lib.strptime_time Lib.py_float Sample.wide_row
           [(Sample.nov4, 0%Z)] [] Sample.two_cell_row []).
  - reflexivity.
  - constructor.
  - reflexivity.
  - vm_compute. lia.
  - repeat constructor; eexists; reflexivity.
Defined.

Lemma get_tides_keys_scenario :
  ∃ tides,
    Sample.get_tides Sample.scenario Sample.scenario_days = Ok (Some tides) ∧
    (∀ dt cols cells,
       (dt, cols, cells) ∈
         day_cells Sample.scenario_days
           (Soup.find_all "td" None Sample.low_row) →
       cols = 0%Z ∨ readings_of Lib.strptime_time Lib.py_float cells ≠ [] →
       dt ∈ tides.*1) ∧
    (∀ dt, dt ∈ tides.*1 → dt ∈ Sample.scenario_days.*1).
Proof.
  apply (get_tides_keys Lib.strptime_time Lib.py_float
           Lib.fromisoformat Lib.py_int
           Sample.scenario Sample.scenario_days Sample.scenario_days []
           [Sample.high_row] Sample.low_row []).
  - reflexivity.
  - reflexivity.
  - repeat constructor.
  - reflexivity.
  - reflexivity.
  - reflexivity.
  - repeat constructor; eexists; reflexivity.
Defined.

(** * Further properties of the code *)

(** ** Splitting and stripping *)

Lemma split_length sep s :
  length (PyStr.split sep s) = S (str_count sep s).
Proof.
  induction s as [|c s IH]; [done|]. simpl.
  destruct (Ascii.eqb c sep); simpl; [by rewrite IH|].
  destruct (PyStr.split sep s); simpl in *; [done | lia].
Qed.

Lemma split_parts sep s :
  Forall (λ p, PyStr.has_char sep p = false) (PyStr.split sep s).
Proof.
  induction s as [|c s IH]; simpl; [by repeat constructor|].
  destruct (Ascii.eqb c sep) eqn:E; [by constructor|].
  destruct (PyStr.split sep s) as [|p ps];
    [repeat constructor; simpl; by rewrite E|].
  apply Forall_cons in IH as [Hp Hps]. constructor; [|done].
  simpl. by rewrite E.
Qed.

Lemma str_count_lstrip c s :
  PyStr.is_space c = false → str_count c (PyStr.lstrip s) = str_count c s.
Proof.
  intros Hc. induction s as [|a s IH]; [done|]. simpl.
  destruct (PyStr.is_space a) eqn:Ha; [|done].
  rewrite IH. destruct (Ascii.eqb_spec a c) as [->|]; [congruence|done].
Qed.

Lemma str_count_rstrip c s :
  PyStr.is_space c = false → str_count c (PyStr.rstrip s) = str_count c s.
Proof.
  intros Hc. induction s as [|a s IH]; [done|]. simpl.
  destruct (PyStr.rstrip s) eqn:Hr.
  - simpl in IH. rewrite <- IH.
    destruct (PyStr.is_space a) eqn:Ha; simpl; [|lia].
    destruct (Ascii.eqb_spec a c) as [->|]; [congruence|done].
  - simpl in *. by rewrite IH.
Qed.

Lemma str_count_strip c s :
  PyStr.is_space c = false → str_count c (PyStr.strip s) = str_count c s.
Proof.
  intros Hc. unfold PyStr.strip.
  by rewrite str_count_rstrip, str_count_lstrip.
Qed.

Lemma has_char_lstrip c s :
  PyStr.has_char c s = false → PyStr.has_char c (PyStr.lstrip s) = false.
Proof.
  induction s as [|a s IH]; [done|]. simpl.
  intros [Ha Hs]%orb_false_iff.
  destruct (PyStr.is_space a); [by apply IH|]. simpl. by rewrite Ha, Hs.
Qed.

Lemma has_char_strip c s :
  PyStr.has_char c s = false → PyStr.has_char c (PyStr.strip s) = false.
Proof. intros H. by apply has_char_rstrip, has_char_lstrip. Qed.

Lemma has_char_app c s t :
  PyStr.has_char c (s +:+ t) = PyStr.has_char c s || PyStr.has_char c t.
Proof.
  induction s as [|a s IH]; [done|]. simpl. by rewrite IH, orb_assoc.
Qed.

Lemma has_char_replace_old old new s :
  Ascii.eqb new old = false →
  PyStr.has_char old (str_replace old new s) = false.
Proof.
  intros Hne. induction s as [|a s IH]; [done|]. simpl. rewrite IH.
  destruct (Ascii.eqb a old) eqn:E; [by rewrite Hne | by rewrite E].
Qed.

Lemma has_char_replace_other c old new s :
  Ascii.eqb new c = false →
  PyStr.has_char c s = false →
  PyStr.has_char c (str_replace old new s) = false.
Proof.
  intros Hne. induction s as [|a s IH]; [done|]. simpl.
  intros [Ha Hs]%orb_false_iff. rewrite (IH Hs).
  destruct (Ascii.eqb a old); [by rewrite Hne | by rewrite Ha].
Qed.

Lemma lstrip_pad pad s :
  Forall (λ c, PyStr.is_space c = true) pad →
  PyStr.lstrip (string_of_list_ascii pad +:+ s) = PyStr.lstrip s.
Proof.
  induction 1 as [|c pad Hc Hpad IH]; [done|]. simpl. by rewrite Hc.
Qed.

Lemma substring_length n m s :
  String.length (String.substring n m s) = m `min` (String.length s - n).
Proof.
  revert n m. induction s as [|c s IH]; intros n m.
  - destruct n, m; simpl; lia.
  - destruct n as [|n]; simpl.
    + destruct m as [|m]; simpl; [done|]. rewrite IH. lia.
    + by rewrite IH.
Qed.

Lemma last_two_length s :
  String.length (PyStr.last_two s) = 2 `min` String.length s.
Proof. unfold PyStr.last_two. rewrite substring_length. lia. Qed.

Lemma fix_hour_shape hr :
  fix_hour hr ≠ "00" ∧
  String.length (fix_hour hr) ≤ 2 ∧
  (hr ≠ "" → 1 ≤ String.length (fix_hour hr)).
Proof.
  unfold fix_hour.
  destruct (decide (PyStr.last_two hr = "00")) as [E|E].
  - repeat split; simpl; (done || lia).
  - rewrite last_two_length. repeat split; [done|lia|].
    intros Hhr. destruct hr; [done|]. simpl. lia.
Qed.

(** The two parts of the time string that [force_hour_two_digits] cuts. *)
Lemma force_hour_two_digits_parts time_str out :
  force_hour_two_digits time_str = Ok out →
  ∃ left_part right_part,
    PyStr.split ":" ("0" +:+ PyStr.strip time_str) = [left_part; right_part] ∧
    out = fix_hour left_part +:+ ":" +:+ right_part.
Proof.
  unfold force_hour_two_digits.
  destruct (PyStr.split _ _) as [|l [|r [|? ?]]]; try done.
  intros [= <-]. eauto.
Qed.

Lemma force_hour_two_digits_split_length time_str :
  length (PyStr.split ":" ("0" +:+ PyStr.strip time_str)) =
    S (str_count ":" time_str).
Proof.
  rewrite split_length.
  change (str_count ":" ("0" +:+ PyStr.strip time_str))
    with (str_count ":" (PyStr.strip time_str)).
  by rewrite str_count_strip.
Qed.

(** ** The hour normaliser, continued *)

(** X1. [force_hour_two_digits] returns when the string has exactly one
    colon and raises [ValueError] otherwise. *)
Theorem force_hour_two_digits_colons (time_str : string) :
  (str_count ":" time_str = 1 → is_Ok (force_hour_two_digits time_str)) ∧
  (str_count ":" time_str ≠ 1 →
   force_hour_two_digits time_str = Raise ValueError).
Proof.
  pose proof (force_hour_two_digits_split_length time_str) as Hlen.
  unfold force_hour_two_digits.
  destruct (PyStr.split _ _) as [|l [|r [|? ?]]]; simpl in Hlen;
    split; intros H; try done; try lia.
  by eexists.
Qed.

(** X2. What [force_hour_two_digits] returns is an hour field of one or
    two characters, never "00", then a colon, then a part without a
    colon. *)
Theorem force_hour_two_digits_never_00 (time_str out : string) :
  force_hour_two_digits time_str = Ok out →
  ∃ hh right_part,
    out = hh +:+ ":" +:+ right_part ∧
    hh ≠ "00" ∧
    1 ≤ String.length hh ≤ 2 ∧
    PyStr.has_char ":" right_part = false.
Proof.
  intros (l & r & Hsplit & ->)%force_hour_two_digits_parts.
  exists (fix_hour l), r. split; [done|].
  destruct (fix_hour_shape l) as (H00 & Hle & Hge).
  split; [done|]. split.
  - split; [|done]. apply Hge. intros ->.
    change ("0" +:+ ?s) with (String "0" s) in Hsplit.
    rewrite (split_cons_other ":" "0") in Hsplit by done.
    by destruct (PyStr.split ":" (PyStr.strip time_str)).
  - pose proof (split_parts ":" ("0" +:+ PyStr.strip time_str)) as Hparts.
    rewrite Hsplit in Hparts.
    by apply Forall_cons in Hparts as [_ [Hr _]%Forall_cons].
Qed.

(** X3. A one-digit hour, with or without white space before it, is
    padded with a zero: the hour "0" gives "12", any other digit [h]
    gives "0h". *)
Theorem force_hour_two_digits_one_digit (pad : list ascii) (h : ascii)
    (rest : string) :
  Forall (λ c, PyStr.is_space c = true) pad →
  PyStr.is_digit h = true →
  PyStr.has_char ":" rest = false →
  force_hour_two_digits
    (string_of_list_ascii pad +:+ String h (":" +:+ rest)) =
    Ok ((if Ascii.eqb h "0" then "12" else String "0" (String h ""))
        +:+ ":" +:+ PyStr.rstrip rest).
Proof.
  intros Hpad Hh Hrest. unfold force_hour_two_digits, PyStr.strip.
  rewrite (lstrip_pad pad _ Hpad).
  assert (PyStr.lstrip (String h (":" +:+ rest)) = String h (":" +:+ rest))
    as ->.
  { simpl. by rewrite (digit_not_space _ Hh). }
  rewrite (rstrip_cons_nonspace h) by by apply digit_not_space.
  change (":" +:+ rest) with (String ":" rest).
  rewrite (rstrip_cons_nonspace ":") by done.
  change ("0" +:+ ?s) with (String "0" s).
  rewrite (split_cons_other ":" "0") by done.
  rewrite (split_cons_other ":" h) by by apply digit_not_colon.
  assert (PyStr.split ":" (String ":" (PyStr.rstrip rest))
          = [""; PyStr.rstrip rest]) as ->.
  { simpl. by rewrite split_no_sep by by apply has_char_rstrip. }
  unfold fix_hour. change (PyStr.last_two (String "0" (String h "")))
    with (String "0" (String h "")).
  destruct (Ascii.eqb_spec h "0") as [->|Hne]; [done|].
  rewrite decide_False; [done|]. intros [= ->]. done.
Qed.

(** ** Parsing times and dates *)

(** X4. [parse_time_str] never raises: it returns [None] when the
    string has not exactly one colon, and a time only when [strptime]
    reads one from the normalised string. *)
Theorem parse_time_str_never_raises (strptime_time : string → option time)
    (time_str : string) :
  (∃ o, parse_time_str strptime_time time_str = Ok o) ∧
  (str_count ":" time_str ≠ 1 →
   parse_time_str strptime_time time_str = Ok None) ∧
  (∀ t, parse_time_str strptime_time time_str = Ok (Some t) →
        ∃ s, force_hour_two_digits time_str = Ok s ∧
             strptime_time s = Some t).
Proof.
  pose proof (force_hour_two_digits_split_length time_str) as Hlen.
  unfold parse_time_str, force_hour_two_digits in *.
  destruct (PyStr.split _ _) as [|l [|r [|? ?]]]; simpl in *;
    try (split; [eauto|split; [done|done]]).
  destruct (strptime_time _) as [t|] eqn:Ht; simpl.
  - split; [eauto|]. split; [lia|]. intros t' [= <-]. eauto.
  - split; [eauto|]. split; done.
Qed.

Lemma replace_year_outcome d y :
  match replace_year d y with
  | Ok d' => valid_date d' = true ∧ d' = Date y (month d) (day d)
  | Raise e => e = ValueError
  end.
Proof.
  unfold replace_year.
  by destruct (valid_date (Date y (month d) (day d))) eqn:E.
Qed.

Lemma adjust_year_outcome today d :
  match adjust_year today d with
  | Ok d' =>
      valid_date d' = true ∧
      d' = Date (if (month today =? 12)%N && (month d =? 1)%N
                 then year today + 1 else year today)%N (month d) (day d)
  | Raise e => e = ValueError
  end.
Proof.
  unfold adjust_year.
  destruct (month today =? 12)%N, (month d =? 1)%N; simpl;
    apply replace_year_outcome.
Qed.

(** X5. [parse_date_str] never raises, whatever the day and whatever
    [strptime] gives: it returns [None] when [strptime] rejects the
    string, and a date it returns is a valid date with the month and
    the day parsed, in today's year or (December, January) the next. *)
Theorem parse_date_str_never_raises (strptime_date : string → option date)
    (today : date) (date_str : string) :
  (∃ o, parse_date_str strptime_date today date_str = Ok o) ∧
  (strptime_date date_str = None →
   parse_date_str strptime_date today date_str = Ok None) ∧
  (∀ d', parse_date_str strptime_date today date_str = Ok (Some d') →
         valid_date d' = true ∧
         ∃ d, strptime_date date_str = Some d ∧
              d' = Date (if (month today =? 12)%N && (month d =? 1)%N
                         then year today + 1 else year today)%N
                        (month d) (day d)).
Proof.
  unfold parse_date_str.
  destruct (strptime_date date_str) as [d|]; simpl;
    [|split; [eauto|split; done]].
  pose proof (adjust_year_outcome today d) as H.
  destruct (adjust_year today d) as [d'|e]; simpl.
  - destruct H as [Hv ->]. split; [eauto|]. split; [done|].
    intros ? [= <-]. eauto.
  - subst e. split; [eauto|]. split; done.
Qed.

(** X6. [adjust_year] raises [ValueError] on the 29th of February when
    today's year is not a leap year, and [parse_date_str] then returns
    [None]. *)
Theorem adjust_year_leap_day (today d : date) :
  month d = 2%N → day d = 29%N → is_leap (year today) = false →
  adjust_year today d = Raise ValueError ∧
  ∀ strptime_date date_str,
    strptime_date date_str = Some d →
    parse_date_str strptime_date today date_str = Ok None.
Proof.
  intros Hm Hd Hleap.
  assert (adjust_year today d = Raise ValueError) as Hadj.
  { unfold adjust_year, replace_year, valid_date. rewrite Hm, Hd. simpl.
    unfold days_in_month. rewrite Hleap.
    destruct (month today =? 12)%N; by rewrite !andb_false_r. }
  split; [done|]. intros sd s Hs. unfold parse_date_str.
  by rewrite Hs; simpl; rewrite Hadj.
Qed.

(** ** Locations *)

Lemma location_split_length location :
  length (PyStr.split "," (PyStr.strip location)) =
    S (str_count "," location).
Proof. by rewrite split_length, str_count_strip. Qed.

(** The two slugs are defined together, and the slug of the city is the
    start of the full slug. *)
Lemma location_slugs location :
  match parse_location location with
  | Ok slug =>
      ∃ city state,
        get_location_without_state location = Ok city ∧
        slug = city +:+ "-" +:+ state ∧
        PyStr.has_char " " city = false ∧ PyStr.has_char "," city = false ∧
        PyStr.has_char " " state = false ∧ PyStr.has_char "," state = false
  | Raise e =>
      e = ValueError ∧ get_location_without_state location = Raise ValueError
  end.
Proof.
  unfold parse_location, get_location_without_state.
  pose proof (split_parts "," (PyStr.strip location)) as Hparts.
  destruct (PyStr.split _ _) as [|c [|s [|? ?]]]; try done.
  apply Forall_cons in Hparts as [Hc [Hs _]%Forall_cons].
  eexists _, _. split; [done|]. split; [done|].
  repeat split.
  - by apply has_char_replace_old.
  - apply has_char_replace_other; [done|]. by apply has_char_strip.
  - by apply has_char_replace_old.
  - apply has_char_replace_other; [done|]. by apply has_char_strip.
Qed.

(** X7. [parse_location] and [get_location_without_state] return when
    the location has exactly one comma, and raise [ValueError]
    otherwise. *)
Theorem parse_location_commas (location : string) :
  (str_count "," location = 1 →
   is_Ok (parse_location location) ∧
   is_Ok (get_location_without_state location)) ∧
  (str_count "," location ≠ 1 →
   parse_location location = Raise ValueError ∧
   get_location_without_state location = Raise ValueError).
Proof.
  pose proof (location_split_length location) as Hlen.
  unfold parse_location, get_location_without_state.
  destruct (PyStr.split _ _) as [|c [|s [|? ?]]]; simpl in Hlen;
    split; intros H; try done; try lia.
  split; by eexists.
Qed.

(** X8. A slug has no space and no comma, and the URL built from it has
    no space. *)
Theorem parse_location_no_space (location slug : string) :
  parse_location location = Ok slug ∨
  get_location_without_state location = Ok slug →
  PyStr.has_char " " slug = false ∧
  PyStr.has_char "," slug = false ∧
  PyStr.has_char " " (tides_url slug) = false.
Proof.
  intros Hslug.
  assert (PyStr.has_char " " slug = false ∧ PyStr.has_char "," slug = false)
    as [Hsp Hco].
  { pose proof (location_slugs location) as H.
    destruct (parse_location location) as [full|e].
    - destruct H as (city & state & Hcity & -> & ? & ? & ? & ?).
      destruct Hslug as [[= <-]|Hslug].
      + rewrite !has_char_app. simpl.
        split; by repeat (apply orb_false_iff; split).
      + rewrite Hcity in Hslug. by injection Hslug as <-.
    - destruct H as [-> H]. rewrite H in Hslug. by destruct Hslug. }
  split; [done|]. split; [done|].
  unfold tides_url. rewrite !has_char_app, Hsp. done.
Qed.

(** ** Rows, headers and cells *)

Lemma has_tide_info_loop_skip tide_type pre rest :
  Forall (other_cell tide_type) pre →
  has_tide_info_loop tide_type (pre ++ rest) =
    has_tide_info_loop tide_type rest.
Proof.
  induction 1 as [|td pre (cls & Hcls & Hin) Hpre IH]; [done|].
  simpl. rewrite Hcls. simpl. by rewrite Hin.
Qed.

Lemma has_tide_info_loop_raises tide_type tds e :
  has_tide_info_loop tide_type tds = Raise e → e = KeyError.
Proof.
  induction tds as [|td tds IH]; [done|]. simpl.
  destruct (Soup.attr td "class") as [cls|]; simpl; [|by intros [= <-]].
  by destruct (Soup.py_in _ cls).
Qed.

(** X9. [has_tide_info] looks at the cells of the row in order and stops
    at the first one with the part looked for: the cells after it are
    not read.  It raises [KeyError], and nothing else, at a cell without
    a class attribute that it reaches, and it returns [False] when every
    cell has a class attribute without the part. *)
Theorem has_tide_info_first_match (tr : node) (tide_type : string) :
  (∀ pre td post cls,
     Soup.find_all "td" None tr = pre ++ td :: post →
     Forall (other_cell tide_type) pre →
     Soup.attr td "class" = Some cls →
     Soup.py_in ("tide-table__part--" +:+ tide_type) cls = true →
     has_tide_info tr tide_type = Ok true) ∧
  (∀ pre td post,
     Soup.find_all "td" None tr = pre ++ td :: post →
     Forall (other_cell tide_type) pre →
     Soup.attr td "class" = None →
     has_tide_info tr tide_type = Raise KeyError) ∧
  (Forall (other_cell tide_type) (Soup.find_all "td" None tr) →
   has_tide_info tr tide_type = Ok false) ∧
  (∀ e, has_tide_info tr tide_type = Raise e → e = KeyError).
Proof.
  unfold has_tide_info. repeat split.
  - intros pre td post cls -> Hpre Hcls Hin.
    rewrite has_tide_info_loop_skip by done. simpl. rewrite Hcls. simpl.
    by rewrite Hin.
  - intros pre td post -> Hpre Hcls.
    rewrite has_tide_info_loop_skip by done. simpl. by rewrite Hcls.
  - intros Hall.
    rewrite <- (app_nil_r (Soup.find_all "td" None tr)).
    by rewrite has_tide_info_loop_skip.
  - apply has_tide_info_loop_raises.
Qed.

Lemma comprehension_Forall2 {A B} (f : A → result B) l ys :
  comprehension f l = Ok ys ↔ Forall2 (λ x y, f x = Ok y) l ys.
Proof.
  revert ys. induction l as [|x l IH]; intros ys; simpl.
  - split; [intros [= <-]; constructor | by inversion 1].
  - split.
    + destruct (f x) as [y|] eqn:Hx; simpl; [|done].
      destruct (comprehension f l) as [ys'|] eqn:Hl; simpl; [|done].
      intros [= <-]. constructor; [done|]. by apply IH.
    + inversion 1 as [|? y ? ys' Hx Hl]; subst. rewrite Hx. simpl.
      apply IH in Hl. by rewrite Hl.
Qed.

Lemma comprehension_first_error {A B} (f : A → result B) pre x post e :
  Forall (λ a, is_Ok (f a)) pre → f x = Raise e →
  comprehension f (pre ++ x :: post) = Raise e.
Proof.
  intros Hpre Hx. induction Hpre as [|a pre [b Ha] Hpre IH]; simpl.
  - by rewrite Hx.
  - rewrite Ha. simpl. by rewrite IH.
Qed.

Section Headers.
Context (fromisoformat : string → option date) (py_int : string → option Z).

Lemma day_column_Ok th d c :
  day_column fromisoformat py_int th = Ok (d, c) →
  ∃ s, Soup.attr th "data-date" = Some (AttrStr s) ∧
       fromisoformat s = Some d ∧
       (Soup.attr th "colspan" = None → c = 0%Z) ∧
       (∀ cs, Soup.attr th "colspan" = Some (AttrStr cs) →
              py_int cs = Some c).
Proof.
  unfold day_column.
  destruct (Soup.attr th "data-date") as [[s|?]|] eqn:Hd; simpl; [|done..].
  destruct (fromisoformat s) as [d'|] eqn:Hs; simpl; [|done].
  destruct (Soup.attr th "colspan") as [[cs|?]|] eqn:Hcol; simpl; [|done|].
  - destruct (py_int cs) as [c'|] eqn:Hc; simpl; [|done].
    intros [= <- <-]. exists s. repeat split; [done..|].
    by intros ? [= <-].
  - intros [= <- <-]. exists s. repeat split; done.
Qed.

(** X10. [get_dates_from_table] returns one pair for each day header, in
    the order of the headers: the date is the one read from the
    attribute [data-date] of the header, the column count is the integer
    of its attribute [colspan], and 0 when the header has none. *)
Theorem get_dates_from_table_headers (table : node) (days : list (date * Z)) :
  get_dates_from_table fromisoformat py_int table = Ok days →
  length days = length (Soup.find_all "th" (Some "tide-table__day") table) ∧
  ∀ i th,
    Soup.find_all "th" (Some "tide-table__day") table !! i = Some th →
    ∃ s d c,
      days !! i = Some (d, c) ∧
      Soup.attr th "data-date" = Some (AttrStr s) ∧
      fromisoformat s = Some d ∧
      (Soup.attr th "colspan" = None → c = 0%Z) ∧
      (∀ cs, Soup.attr th "colspan" = Some (AttrStr cs) → py_int cs = Some c).
Proof.
  unfold get_dates_from_table. intros Hall%comprehension_Forall2.
  split; [symmetry; by eapply Forall2_length|].
  intros i th Hth.
  destruct (Forall2_lookup_l _ _ _ _ _ Hall Hth) as ([d c] & Hi & Hdc).
  destruct (day_column_Ok th d c Hdc) as (s & ? & ? & ? & ?).
  exists s, d, c. done.
Qed.

(** X11. The first day header that cannot be read decides the error of
    [get_dates_from_table]: [KeyError] when it has no attribute
    [data-date], [ValueError] when its date or its [colspan] does not
    parse. *)
Theorem get_dates_from_table_first_error (table : node) pre th post :
  Soup.find_all "th" (Some "tide-table__day") table = pre ++ th :: post →
  Forall (λ h, is_Ok (day_column fromisoformat py_int h)) pre →
  (Soup.attr th "data-date" = None →
   get_dates_from_table fromisoformat py_int table = Raise KeyError) ∧
  (∀ s, Soup.attr th "data-date" = Some (AttrStr s) →
        fromisoformat s = None →
        get_dates_from_table fromisoformat py_int table = Raise ValueError) ∧
  (∀ s d cs,
     Soup.attr th "data-date" = Some (AttrStr s) →
     fromisoformat s = Some d →
     Soup.attr th "colspan" = Some (AttrStr cs) →
     py_int cs = None →
     get_dates_from_table fromisoformat py_int table = Raise ValueError).
Proof.
  intros Hths Hpre. unfold get_dates_from_table. rewrite Hths.
  repeat split.
  - intros Hd. apply comprehension_first_error; [done|].
    unfold day_column. by rewrite Hd.
  - intros s Hd Hs. apply comprehension_first_error; [done|].
    unfold day_column. rewrite Hd. simpl. by rewrite Hs.
  - intros s d cs Hd Hs Hc Hcs. apply comprehension_first_error; [done|].
    unfold day_column. rewrite Hd. simpl. rewrite Hs. simpl. rewrite Hc.
    by rewrite Hcs.
Qed.

End Headers.

Section CellErrors.
Context (strptime_time : string → option time).
Context {height : Type} (py_float : string → option height).

Lemma append_row_bad_height data c v h u :
  get_value_height_unit c = (Some v, Some h, Some u) →
  py_float (Soup.text h) = None →
  append_row strptime_time py_float data c = Raise ValueError.
Proof.
  intros Hc Hh. unfold append_row, make_row. rewrite Hc.
  destruct (parse_time_str_total strptime_time (Soup.text v)) as [t ->].
  simpl. by rewrite Hh.
Qed.

(** X12. A height that [float] does not read makes [get_data] raise
    [ValueError]: in the cell with one group, and in either group of a
    cell with two, where the reading of the other group is lost. *)
Theorem get_data_bad_height (td : node) :
  (∀ d v h u,
     Soup.find_all "div" None td = [d] →
     get_value_height_unit td = (Some v, Some h, Some u) →
     py_float (Soup.text h) = None →
     get_data strptime_time py_float td = Raise ValueError) ∧
  (∀ d1 d2 d v h u,
     Soup.find_all "div" None td = [d1; d2] →
     d = d1 ∨ d = d2 →
     get_value_height_unit d = (Some v, Some h, Some u) →
     py_float (Soup.text h) = None →
     get_data strptime_time py_float td = Raise ValueError).
Proof.
  split.
  - intros d v h u Hd Hc Hh. rewrite (get_data_one_div _ _ td d Hd).
    by eapply append_row_bad_height.
  - intros d1 d2 d v h u Hd Hor Hc Hh.
    rewrite (get_data_two_divs _ _ td d1 d2 Hd).
    destruct Hor as [->| ->].
    + by rewrite (append_row_bad_height [] d1 v h u Hc Hh).
    + pose proof (append_row_outcome strptime_time py_float [] d1) as H1.
      destruct (append_row strptime_time py_float [] d1) as [data|e]; simpl.
      * by eapply append_row_bad_height.
      * by subst e.
Qed.

(** X13. A time that does not parse does not drop the reading:
    [get_data] returns it with the time [None]. *)
Theorem get_data_unparsed_time (td d v h u : node) (x : height) :
  Soup.find_all "div" None td = [d] →
  get_value_height_unit td = (Some v, Some h, Some u) →
  py_float (Soup.text h) = Some x →
  str_count ":" (Soup.text v) ≠ 1 ∨
  (∀ s, force_hour_two_digits (Soup.text v) = Ok s → strptime_time s = None) →
  get_data strptime_time py_float td = Ok [(None, x, Soup.text u)].
Proof.
  intros Hd Hc Hx Hbad. rewrite (get_data_one_div _ _ td d Hd).
  unfold append_row, make_row. rewrite Hc.
  assert (parse_time_str strptime_time (Soup.text v) = Ok None) as ->.
  { unfold parse_time_str.
    pose proof (force_hour_two_digits_split_length (Soup.text v)) as Hlen.
    destruct Hbad as [Hcount|Hreject].
    - unfold force_hour_two_digits.
      destruct (PyStr.split _ _) as [|l [|r [|? ?]]]; simpl in *;
        (done || lia).
    - destruct (force_hour_two_digits (Soup.text v)) as [s|e] eqn:Hs; simpl.
      + by rewrite (Hreject s eq_refl).
      + assert (e = ValueError) as ->; [|done].
        revert Hs. unfold force_hour_two_digits.
        destruct (PyStr.split _ _) as [|? [|? [|? ?]]]; by intros [= <-]. }
  simpl. by rewrite Hx.
Qed.

End CellErrors.

(** ** The tide rows, continued *)

Section GetTidesMore.
Context (strptime_time : string → option time).
Context {height : Type} (py_float : string → option height).
Implicit Types (tides : list (date * list (reading height))).
Implicit Types (tds cells : list node) (days used rest : list (date * Z)).

Lemma ok_before_all tds bound :
  Forall (λ td, is_Ok (get_data strptime_time py_float td)) tds →
  ok_before strptime_time py_float tds bound.
Proof. intros Hok i td Htd _. exact (Forall_lookup_1 _ _ _ _ Hok Htd). Qed.

Lemma ok_before_app good more :
  Forall (λ td, is_Ok (get_data strptime_time py_float td)) good →
  ok_before strptime_time py_float (good ++ more) (length good).
Proof.
  intros Hok i td Htd Hi. rewrite lookup_app_l in Htd by done.
  exact (Forall_lookup_1 _ _ _ _ Hok Htd).
Qed.

Lemma cols_loop_before tds dt n :
  ∀ idx tides,
  idx + n ≤ length tds → ok_before strptime_time py_float tds (idx + n) →
  cols_loop strptime_time py_float n tds dt tides idx =
    Ok (extend_if_data tides dt
          (readings_of strptime_time py_float (take n (drop idx tds))),
        idx + n).
Proof.
  induction n as [|n IH]; intros idx tides Hlen Hok.
  - simpl. by rewrite Nat.add_0_r.
  - cbn [cols_loop].
    destruct (lookup_lt_is_Some_2 tds idx) as [td Htd]; [lia|].
    rewrite Htd. cbn [or_raise mbind result_bind].
    rewrite (get_data_cell_readings strptime_time py_float td)
      by (apply (Hok idx td Htd); lia).
    cbn [mbind result_bind].
    rewrite IH by (rewrite ?Nat.add_succ_l, <- ?Nat.add_succ_r; done || lia).
    rewrite extend_if_data_app, (drop_S _ _ _ Htd), Nat.add_succ_r. done.
Qed.

(** The [for] loop that starts a day with too few cells left. *)
Lemma cols_loop_short tds dt n :
  ∀ idx tides,
  idx ≤ length tds < idx + n →
  ok_before strptime_time py_float tds (length tds) →
  cols_loop strptime_time py_float n tds dt tides idx = Raise IndexError.
Proof.
  induction n as [|n IH]; intros idx tides Hlen Hok; [lia|].
  cbn [cols_loop]. destruct (tds !! idx) as [td|] eqn:Htd; [|done].
  pose proof (lookup_lt_Some _ _ _ Htd).
  cbn [or_raise mbind result_bind].
  rewrite (get_data_cell_readings strptime_time py_float td)
    by by apply (Hok idx td Htd).
  cbn [mbind result_bind]. apply IH; [lia|done].
Qed.

(** The [for] loop that comes to a cell on which [get_data] raises. *)
Lemma cols_loop_raises tds dt bad cell e n :
  ∀ idx tides,
  tds !! bad = Some cell → get_data strptime_time py_float cell = Raise e →
  idx ≤ bad < idx + n → ok_before strptime_time py_float tds bad →
  cols_loop strptime_time py_float n tds dt tides idx = Raise e.
Proof.
  intros idx tides Hbad He. revert idx tides.
  induction n as [|n IH]; intros idx tides Hlen Hok; [lia|].
  cbn [cols_loop]. destruct (decide (idx = bad)) as [->|Hne].
  - rewrite Hbad. cbn [or_raise mbind result_bind]. by rewrite He.
  - destruct (lookup_lt_is_Some_2 tds idx) as [td Htd].
    { apply lookup_lt_Some in Hbad. lia. }
    rewrite Htd. cbn [or_raise mbind result_bind].
    rewrite (get_data_cell_readings strptime_time py_float td)
      by (apply (Hok idx td Htd); lia).
    cbn [mbind result_bind]. apply IH; [lia|done].
Qed.

(** The [while] loop over the first days, when cells remain after them. *)
Lemma row_loop_prefix tds rest used :
  ∀ idx tides,
  cells_needed used + idx < length tds →
  ok_before strptime_time py_float tds (cells_needed used + idx) →
  row_loop strptime_time py_float (used ++ rest) tds idx tides =
    row_loop strptime_time py_float rest tds (idx + cells_needed used)
      (assign_days strptime_time py_float
         (day_cells used (drop idx tds)) tides).
Proof.
  induction used as [|[dt c] used IH]; intros idx tides Hsum Hok.
  - simpl. by rewrite Nat.add_0_r.
  - rewrite cells_needed_cons in Hsum, Hok. cbn [app row_loop].
    rewrite decide_False by lia.
    destruct (lookup_lt_is_Some_2 tds idx) as [td Htd]; [lia|].
    rewrite Htd. cbn [or_raise mbind result_bind].
    cbn [day_cells assign_days]. rewrite cells_needed_cons.
    unfold cells_consumed in *.
    destruct (Z.eqb_spec c 0) as [->|Hc].
    + rewrite (get_data_cell_readings strptime_time py_float td)
        by (apply (Hok idx td Htd); lia).
      cbn [mbind result_bind].
      rewrite IH by (try lia; intros i x Hx Hi; apply (Hok i x Hx); lia).
      rewrite (drop_S _ _ _ Htd). simpl. rewrite app_nil_r, drop_0.
      f_equal. lia.
    + rewrite cols_loop_before
        by (try lia; intros i x Hx Hi; apply (Hok i x Hx); lia).
      cbn [mbind result_bind].
      rewrite IH by (try lia; intros i x Hx Hi; apply (Hok i x Hx); lia).
      rewrite drop_drop. f_equal. lia.
Qed.

Lemma dict_set_fresh {K V} `{EqDecision K} (d : list (K * V)) k v :
  k ∉ d.*1 → dict_set d k v = d ++ [(k, v)].
Proof.
  induction d as [|[k' v'] d IH]; [done|]. simpl.
  intros [Hne Hk]%not_elem_of_cons.
  rewrite decide_False by done. by rewrite IH.
Qed.

Lemma extend_if_data_fresh tides dt (data : list (reading height)) :
  dt ∉ tides.*1 →
  extend_if_data tides dt data =
    tides ++ (if bool_decide (data = []) then [] else [(dt, data)]).
Proof.
  intros Hdt. destruct data as [|r data]; simpl; [by rewrite app_nil_r|].
  unfold dict_extend, getitem.
  rewrite (proj2 (dict_get_None tides dt) Hdt). simpl.
  by apply dict_set_fresh.
Qed.

Lemma NoDup_app_drop_middle {A} (l k : list A) x :
  NoDup (l ++ x :: k) → NoDup (l ++ k).
Proof.
  intros (Hl & Hdisj & [_ Hk]%NoDup_cons)%NoDup_app.
  apply NoDup_app. split; [done|]. split; [|done].
  intros y Hy Hin. apply (Hdisj y Hy). by right.
Qed.

(** The keys of the dictionary of a row, in their order. *)
Lemma assign_days_key_order dc :
  ∀ tides,
  NoDup (tides.*1 ++ dc.*1.*1) →
  (assign_days strptime_time py_float dc tides).*1 =
    tides.*1 ++ (List.filter (gets_key strptime_time py_float) dc).*1.*1.
Proof.
  induction dc as [|[[dt c] cs] dc IH]; intros tides Hnd.
  - simpl. by rewrite app_nil_r.
  - simpl in Hnd.
    assert (dt ∉ tides.*1) as Hfresh.
    { apply NoDup_app in Hnd as (_ & Hdisj & _).
      intros Hin. apply (Hdisj dt Hin). left. }
    cbn [assign_days List.filter]. unfold gets_key at 1. cbn [fst snd].
    destruct (Z.eqb_spec c 0) as [->|Hc]; simpl.
    + rewrite IH; rewrite dict_set_fresh by done; rewrite fmap_app; simpl.
      * by rewrite <- (assoc_L (++)).
      * by rewrite <- (assoc_L (++)).
    + rewrite extend_if_data_fresh by done.
      destruct (bool_decide (readings_of strptime_time py_float cs = []));
        simpl.
      * rewrite app_nil_r. apply IH. by eapply NoDup_app_drop_middle.
      * rewrite IH; rewrite fmap_app; simpl.
        -- by rewrite <- (assoc_L (++)).
        -- by rewrite <- (assoc_L (++)).
Qed.

Lemma ok_before_le tds a b :
  a ≤ b → ok_before strptime_time py_float tds b →
  ok_before strptime_time py_float tds a.
Proof. intros Hab Hok i td Htd Hi. apply (Hok i td Htd). lia. Qed.

(** X14. When no separator row has a low tide, [get_tides] returns
    [None], not an empty dictionary, and [extract_tides] then raises
    [AttributeError]. *)
Theorem get_tides_no_low_row (table : node) :
  Forall (λ r, has_tide_info r "low" = Ok false)
         (Soup.find_all "tr" (Some "tide-table__separator") table) →
  (∀ days, get_tides strptime_time py_float table days = Ok None) ∧
  (∀ fromisoformat py_int days rise_and_set,
     get_dates_from_table fromisoformat py_int table = Ok days →
     get_rise_and_set strptime_time table = Ok rise_and_set →
     extract_tides strptime_time py_float fromisoformat py_int table =
       Raise AttributeError).
Proof.
  intros Hrows.
  assert (∀ days, get_tides strptime_time py_float table days = Ok None)
    as Hnone.
  { intros days. unfold get_tides. by apply rows_loop_none. }
  split; [done|]. intros fi pi days rso Hdays Hrso.
  unfold extract_tides. rewrite Hdays. simpl. rewrite Hrso. simpl.
  by rewrite Hnone.
Qed.

(** X15. When the cells of the first row with a low tide run out inside
    a day with a column count, [get_tides] raises [IndexError]. *)
Theorem get_tides_cells_run_out table days used dt cols rest pre tr post :
  Soup.find_all "tr" (Some "tide-table__separator") table = pre ++ tr :: post →
  Forall (λ r, has_tide_info r "low" = Ok false) pre →
  has_tide_info tr "low" = Ok true →
  days = used ++ (dt, cols) :: rest →
  cells_needed used < length (Soup.find_all "td" None tr)
    < cells_needed used + Z.to_nat cols →
  Forall (λ td, is_Ok (get_data strptime_time py_float td))
         (Soup.find_all "td" None tr) →
  get_tides strptime_time py_float table days = Raise IndexError.
Proof.
  intros Htrs Hpre Htr -> [Hlo Hhi] Hok. unfold get_tides.
  rewrite Htrs, (rows_loop_first _ _ pre tr post _ _ Hpre Htr).
  rewrite row_loop_prefix; [|lia|by apply ok_before_all]. simpl.
  cbn [row_loop]. rewrite decide_False by lia.
  destruct (lookup_lt_is_Some_2 (Soup.find_all "td" None tr)
              (cells_needed used)) as [td Htd]; [done|].
  rewrite Htd. cbn [or_raise mbind result_bind].
  destruct (Z.eqb_spec cols 0) as [->|Hc]; [simpl in Hhi; lia|].
  rewrite cols_loop_short; [done|lia|by apply ok_before_all].
Qed.

(** X16. The keys of the dictionary of [get_tides] are, in the order of
    the days, the dates of the days with a column count of 0 or with a
    reading: a day with a column count and no reading takes no place,
    and the days after it move one place up. *)
Theorem get_tides_key_order table days used unused pre tr post :
  Soup.find_all "tr" (Some "tide-table__separator") table = pre ++ tr :: post →
  Forall (λ r, has_tide_info r "low" = Ok false) pre →
  has_tide_info tr "low" = Ok true →
  days = used ++ unused →
  NoDup used.*1 →
  cells_needed used = length (Soup.find_all "td" None tr) →
  Forall (λ td, is_Ok (get_data strptime_time py_float td))
         (Soup.find_all "td" None tr) →
  ∃ tides,
    get_tides strptime_time py_float table days = Ok (Some tides) ∧
    tides.*1 =
      (List.filter (gets_key strptime_time py_float)
         (day_cells used (Soup.find_all "td" None tr))).*1.*1.
Proof.
  intros Htrs Hpre Htr Hdays Hnd Hsum Hok.
  eexists. split; [by eapply get_tides_assign|].
  rewrite assign_days_key_order; [done|]. simpl.
  by rewrite day_cells_dates.
Qed.

(** X17. When [get_data] raises on a cell that the days reach, the cells
    before it being read, [get_tides] raises the same error: nothing of
    the row is returned. *)
Theorem get_tides_cell_error table days used dt cols rest pre tr post
    good bad more e :
  Soup.find_all "tr" (Some "tide-table__separator") table = pre ++ tr :: post →
  Forall (λ r, has_tide_info r "low" = Ok false) pre →
  has_tide_info tr "low" = Ok true →
  Soup.find_all "td" None tr = good ++ bad :: more →
  Forall (λ td, is_Ok (get_data strptime_time py_float td)) good →
  get_data strptime_time py_float bad = Raise e →
  days = used ++ (dt, cols) :: rest →
  cells_needed used ≤ length good < cells_needed used + cells_consumed cols →
  get_tides strptime_time py_float table days = Raise e.
Proof.
  intros Htrs Hpre Htr Htds Hgood Hbad -> [Hlo Hhi]. unfold get_tides.
  rewrite Htrs, (rows_loop_first _ _ pre tr post _ _ Hpre Htr), Htds.
  pose proof (ok_before_app good (bad :: more) Hgood) as Hok.
  assert ((good ++ bad :: more) !! length good = Some bad) as Hat.
  { by rewrite lookup_app_r, Nat.sub_diag by done. }
  assert (length (good ++ bad :: more) = length good + S (length more))
    as Hlen by (by rewrite length_app).
  rewrite row_loop_prefix;
    [|lia|apply (ok_before_le _ _ (length good)); [lia|done]].
  simpl. cbn [row_loop]. rewrite decide_False by lia.
  destruct (lookup_lt_is_Some_2 (good ++ bad :: more) (cells_needed used))
    as [td Htd]; [lia|].
  rewrite Htd. cbn [or_raise mbind result_bind].
  unfold cells_consumed in Hhi.
  destruct (Z.eqb_spec cols 0) as [->|Hc].
  - assert (cells_needed used = length good) as Heq by lia.
    rewrite Heq, Hat in Htd. injection Htd as <-. by rewrite Hbad.
  - by rewrite (cols_loop_raises _ _ (length good) bad e).
Qed.

End GetTidesMore.

(** ** Sunrise and sunset, continued *)

Section RiseAndSetMore.
Context (strptime_time : string → option time).

Lemma first_div_time_outcome td :
  match first_div_time strptime_time td with
  | Ok _ => is_Some (Soup.find "div" None td)
  | Raise e => e = AttributeError ∧ Soup.find "div" None td = None
  end.
Proof.
  unfold first_div_time. destruct (Soup.find "div" None td) as [div|]; simpl.
  - by destruct (parse_time_str_total strptime_time
                   (PyStr.strip (Soup.text div))) as [o ->].
  - done.
Qed.

(** One turn of the loop keeps the windows fit, and raises
    [AttributeError] only. *)
Lemma sun_cell_outcome st td :
  match sun_cell strptime_time st td with
  | Ok st' => Forall kept_window (times_ st) → Forall kept_window (times_ st')
  | Raise e => e = AttributeError
  end.
Proof.
  unfold sun_cell. destruct (decide (Soup.text td = "")); [done|].
  pose proof (first_div_time_outcome td) as Hdiv.
  destruct (sunrise st); [destruct (sunset st)|].
  - rewrite comprehension_div_times. cbn [mbind result_bind].
    fold (div_times strptime_time td).
    destruct (bool_decide (div_times strptime_time td ≠ [])) eqn:E1,
             (bool_decide (div_times strptime_time td ≠ [None; None])) eqn:E2;
      simpl; try done.
    intros Hall. apply Forall_app. split; [done|].
    apply bool_decide_eq_true in E1, E2. by repeat constructor.
  - destruct (first_div_time strptime_time td); simpl;
      [done | by destruct Hdiv].
  - destruct (first_div_time strptime_time td); simpl;
      [done | by destruct Hdiv].
Qed.

Lemma sun_cells_outcome tds :
  ∀ st,
  match for_each (sun_cell strptime_time) tds st with
  | Ok st' => Forall kept_window (times_ st) → Forall kept_window (times_ st')
  | Raise e => e = AttributeError
  end.
Proof.
  induction tds as [|td tds IH]; intros st; [by simpl|]. cbn [for_each].
  pose proof (sun_cell_outcome st td) as H1.
  destruct (sun_cell strptime_time st td) as [st1|e]; [|done].
  cbn [mbind result_bind]. specialize (IH st1).
  destruct (for_each _ tds st1); [auto | done].
Qed.

Lemma sun_row_outcome tds :
  match sun_row strptime_time tds with
  | Ok ws => Forall kept_window ws
  | Raise e => e = AttributeError
  end.
Proof.
  unfold sun_row.
  pose proof (sun_cells_outcome tds (SunState [] None None)) as H.
  destruct (for_each _ tds _) as [st|e]; [|done]. cbn [mbind result_bind].
  specialize (H (Forall_nil_2 _)).
  destruct (sunrise st) as [a|], (sunset st) as [b|]; try done.
  constructor; [|done]. by split.
Qed.

(** X18. No sun window that [get_rise_and_set] returns is the empty
    list or the pair [None, None], and the one error that
    [get_rise_and_set] raises is [AttributeError]. *)
Theorem get_rise_and_set_windows (table : node) :
  match get_rise_and_set strptime_time table with
  | Ok (Some ws) => Forall kept_window ws
  | Ok None => True
  | Raise e => e = AttributeError
  end.
Proof.
  unfold get_rise_and_set.
  induction (Soup.find_all "tr" None table) as [|tr trs IH]; [done|].
  cbn [sun_rows_loop].
  destruct (Soup.find_all "td" (Some "tide-table__part--sun") tr)
    as [|td tds]; [done|].
  pose proof (sun_row_outcome (td :: tds)) as H.
  by destruct (sun_row strptime_time (td :: tds)).
Qed.

Lemma sun_cell_blank st td :
  Soup.text td = "" → sun_cell strptime_time st td = Ok st.
Proof. intros E. unfold sun_cell. by rewrite decide_True. Qed.

Lemma sun_cell_no_div st td :
  Soup.text td ≠ "" → Soup.find "div" None td = None →
  sunrise st = None ∨ sunset st = None →
  sun_cell strptime_time st td = Raise AttributeError.
Proof.
  intros Htext Hdiv Hst. unfold sun_cell, first_div_time.
  rewrite decide_False, Hdiv by done.
  destruct (sunrise st), (sunset st); try done. by destruct Hst.
Qed.

(** The cells without text change nothing. *)
Lemma sun_cells_skip_blank tds :
  ∀ st,
  for_each (sun_cell strptime_time) (List.filter has_text tds) st =
    for_each (sun_cell strptime_time) tds st.
Proof.
  induction tds as [|td tds IH]; intros st; [done|].
  cbn [List.filter]. unfold has_text at 1.
  destruct (decide (Soup.text td = "")) as [E|E].
  - rewrite bool_decide_eq_true_2 by done. cbn [negb for_each].
    rewrite sun_cell_blank by done. cbn [mbind result_bind]. apply IH.
  - rewrite bool_decide_eq_false_2 by done. cbn [negb for_each].
    destruct (sun_cell strptime_time st td); [apply IH | done].
Qed.

Lemma filter_has_text_blank blank :
  Forall (λ c, Soup.text c = "") blank → List.filter has_text blank = [].
Proof.
  induction 1 as [|c blank Hc Hblank IH]; [done|].
  cbn [List.filter]. unfold has_text at 1.
  by rewrite bool_decide_eq_true_2.
Qed.

Lemma sun_row_skip_blank tds :
  sun_row strptime_time (List.filter has_text tds) = sun_row strptime_time tds.
Proof. unfold sun_row. by rewrite sun_cells_skip_blank. Qed.

(** X19. The sun cells without text are passed over, and so is a first
    cell whose time does not parse: the next cell with text gives the
    sunrise. *)
Theorem sun_row_skips (tds : list node) :
  sun_row strptime_time (List.filter has_text tds) = sun_row strptime_time tds ∧
  ∀ td, first_div_time strptime_time td = Ok None →
        sun_row strptime_time (td :: tds) = sun_row strptime_time tds.
Proof.
  split; [apply sun_row_skip_blank|].
  intros td Htd. unfold sun_row. cbn [for_each].
  assert (sun_cell strptime_time (SunState [] None None) td =
          Ok (SunState [] None None)) as ->; [|done].
  unfold sun_cell. cbn [sunrise sunset times_].
  destruct (decide (Soup.text td = "")); [done|]. by rewrite Htd.
Qed.

(** X20. When the first sun cell with text has no [div], in the first
    row with sun cells, [get_rise_and_set] raises [AttributeError]. *)
Theorem get_rise_and_set_no_div table pre tr post blank td others :
  Soup.find_all "tr" None table = pre ++ tr :: post →
  Forall (λ r, Soup.find_all "td" (Some "tide-table__part--sun") r = [])
         pre →
  Soup.find_all "td" (Some "tide-table__part--sun") tr =
    blank ++ td :: others →
  Forall (λ c, Soup.text c = "") blank →
  Soup.text td ≠ "" →
  Soup.find "div" None td = None →
  get_rise_and_set strptime_time table = Raise AttributeError.
Proof.
  intros Htrs Hpre Htds Hblank Htext Hdiv. unfold get_rise_and_set.
  rewrite Htrs, sun_rows_loop_first; [|done|rewrite Htds; by destruct blank].
  rewrite Htds, <- sun_row_skip_blank.
  assert (List.filter has_text (blank ++ td :: others) =
          td :: List.filter has_text others) as ->.
  { rewrite List.filter_app. cbn [List.filter]. unfold has_text at 2.
    rewrite bool_decide_eq_false_2 by done. cbn [negb].
    by rewrite filter_has_text_blank. }
  unfold sun_row. cbn [for_each].
  rewrite sun_cell_no_div; [done..|by left].
Qed.

(** X21. A sunrise without a sunset is dropped: when the first row with
    sun cells has one cell with text, and that cell has a [div],
    [get_rise_and_set] returns the empty list. *)
Theorem get_rise_and_set_sunrise_only table pre tr post td :
  Soup.find_all "tr" None table = pre ++ tr :: post →
  Forall (λ r, Soup.find_all "td" (Some "tide-table__part--sun") r = [])
         pre →
  List.filter has_text
    (Soup.find_all "td" (Some "tide-table__part--sun") tr) = [td] →
  is_Some (Soup.find "div" None td) →
  get_rise_and_set strptime_time table = Ok (Some []).
Proof.
  intros Htrs Hpre Htds [div Hdiv]. unfold get_rise_and_set.
  rewrite Htrs, sun_rows_loop_first; [|done|].
  2: { intros E. by rewrite E in Htds. }
  rewrite <- sun_row_skip_blank, Htds.
  assert (Soup.text td ≠ "") as Htext.
  { assert (In td (List.filter has_text
              (Soup.find_all "td" (Some "tide-table__part--sun") tr)))
      as Hin by (rewrite Htds; by left).
    apply filter_In in Hin as [_ Hin]. unfold has_text in Hin.
    by apply negb_true_iff, bool_decide_eq_false in Hin. }
  pose proof (first_div_time_outcome td) as Hout.
  destruct (first_div_time strptime_time td) as [o|e] eqn:Ho.
  - unfold sun_row. cbn [for_each].
    rewrite (sun_cell_sunrise strptime_time [] None td o Htext Ho).
    cbn [mbind result_bind for_each sunrise sunset times_]. by destruct o.
  - destruct Hout as [_ Hnone]. by rewrite Hnone in Hdiv.
Qed.

End RiseAndSetMore.

(** ** The daylight filter, continued *)

Section DaylightMore.
Context {height : Type}.
Implicit Types (rs : list (list (option time))) (r : reading height).
Implicit Types (tides acc items : list (date * list (reading height))).
Implicit Types (keeps : list (list (reading height))).

Lemma keep_reading_step rso i dt acc r acc' :
  keep_reading rso i dt acc r = Ok acc' →
  acc' = acc ∨ acc' = extend_if_data acc dt [r].
Proof.
  destruct r as [[t v] u]. unfold keep_reading.
  destruct (in_daylight rso i t) as [[]|]; simpl; [| |done].
  - intros [= <-]. by right.
  - intros [= <-]. by left.
Qed.

(** The inner loop keeps some of the readings of the day, in order. *)
Lemma keep_day_sublist rso i dt tide_data :
  ∀ acc acc',
  for_each (keep_reading rso i dt) tide_data acc = Ok acc' →
  ∃ kept, sublist kept tide_data ∧ acc' = extend_if_data acc dt kept.
Proof.
  induction tide_data as [|r tide_data IH]; intros acc acc'.
  - intros [= <-]. by exists [].
  - cbn [for_each].
    destruct (keep_reading rso i dt acc r) as [acc1|] eqn:E; [|done].
    cbn [mbind result_bind]. intros (kept & Hsub & ->)%IH.
    apply keep_reading_step in E as [->| ->].
    + exists kept. split; [by apply sublist_cons|done].
    + exists (r :: kept). split; [by apply sublist_skip|].
      by rewrite extend_if_data_app.
Qed.

Lemma kept_entries_cons dt tide_data items kept keeps :
  kept_entries ((dt, tide_data) :: items) (kept :: keeps) =
    (if bool_decide (kept = []) then [] else [(dt, kept)])
      ++ kept_entries items keeps.
Proof. unfold kept_entries. simpl. by destruct kept. Qed.

Lemma kept_entries_keys items :
  ∀ keeps, sublist (kept_entries items keeps).*1 items.*1.
Proof.
  induction items as [|[dt td] items IH]; intros [|kept keeps];
    try apply sublist_nil_l.
  rewrite kept_entries_cons. destruct kept; simpl.
  - by apply sublist_cons.
  - by apply sublist_skip.
Qed.

(** The loop over the days gives the entries of what it keeps. *)
Lemma filter_loop_kept rso items :
  ∀ k acc filtered,
  NoDup (acc.*1 ++ items.*1) →
  filter_loop rso items k acc = Ok filtered →
  ∃ keeps,
    Forall2 (λ kept it, sublist kept it.2) keeps items ∧
    filtered = acc ++ kept_entries items keeps.
Proof.
  induction items as [|[dt td] items IH]; intros k acc filtered Hnd.
  - intros [= <-]. exists []. split; [constructor|]. by rewrite app_nil_r.
  - cbn [filter_loop].
    destruct (for_each (keep_reading rso k dt) td acc) as [acc1|] eqn:E;
      [|done].
    cbn [mbind result_bind].
    apply keep_day_sublist in E as (kept & Hsub & ->).
    simpl in Hnd.
    assert (dt ∉ acc.*1) as Hfresh.
    { apply NoDup_app in Hnd as (_ & Hdisj & _).
      intros Hin. apply (Hdisj dt Hin). left. }
    rewrite extend_if_data_fresh by done.
    intros (keeps & Hall & ->)%IH.
    + exists (kept :: keeps). split; [by constructor|].
      by rewrite kept_entries_cons, (assoc_L (++)).
    + rewrite fmap_app. destruct (bool_decide (kept = [])); simpl.
      * rewrite app_nil_r. by eapply NoDup_app_drop_middle.
      * by rewrite <- (assoc_L (++)).
Qed.

Lemma kept_entries_getitem items :
  ∀ keeps dt,
  NoDup items.*1 →
  Forall2 (λ kept it, sublist kept it.2) keeps items →
  sublist (getitem (kept_entries items keeps) dt) (getitem items dt).
Proof.
  induction items as [|[dt0 td0] items IH]; intros keeps dt Hnd Hall.
  { inversion Hall. apply sublist_nil_l. }
  inversion Hall as [|kept ? keeps' ? Hsub Hall']; subst.
  apply NoDup_cons in Hnd as [Hfresh Hnd].
  rewrite kept_entries_cons. unfold getitem at 2. simpl in *.
  destruct (decide (dt0 = dt)) as [->|Hne]; simpl.
  - destruct kept as [|r kept]; simpl.
    + assert (getitem (kept_entries items keeps') dt = []) as ->;
        [|apply sublist_nil_l].
      unfold getitem.
      rewrite (proj2 (dict_get_None (kept_entries items keeps') dt));
        [done|].
      intros Hin. apply Hfresh.
      eapply elem_of_sublist; [done | apply kept_entries_keys].
    + unfold getitem. simpl. by rewrite decide_True.
  - specialize (IH keeps' dt Hnd Hall').
    destruct kept as [|r kept]; simpl; [done|].
    unfold getitem at 1. simpl. by rewrite decide_False.
Qed.

Lemma kept_entries_nonempty items :
  ∀ keeps, Forall (λ it, it.2 ≠ []) (kept_entries items keeps).
Proof.
  induction items as [|[dt td] items IH]; intros [|kept keeps];
    try by constructor.
  rewrite kept_entries_cons. apply Forall_app. split; [|done].
  destruct kept; simpl; by repeat constructor.
Qed.

(** X22. The daylight filter adds nothing and moves nothing: whenever it
    returns, the readings of a date are some of the readings that the
    date had, in their order, the dates are some of the dates, in their
    order, and no date is left with an empty list. *)
Theorem daylight_filter_sublist tides rise_and_set filtered :
  NoDup tides.*1 →
  daylight_filter tides rise_and_set = Ok filtered →
  (∀ dt, sublist (getitem filtered dt) (getitem tides dt)) ∧
  sublist filtered.*1 tides.*1 ∧
  Forall (λ it, it.2 ≠ []) filtered.
Proof.
  intros Hnd Hrun. unfold daylight_filter in Hrun.
  apply filter_loop_kept in Hrun as (keeps & Hall & ->); [|done].
  simpl. split; [|split].
  - intros dt. by apply kept_entries_getitem.
  - apply kept_entries_keys.
  - apply kept_entries_nonempty.
Qed.

Lemma keep_reading_none rs i dt acc r lo w :
  rs !! i = Some (lo :: w) → lo = None ∨ r.1.1 = None →
  keep_reading (Some rs) i dt acc r = Raise TypeError.
Proof.
  intros Hw Hnone. destruct r as [[t v] u]. simpl in Hnone.
  unfold keep_reading, in_daylight. simpl. rewrite Hw. simpl.
  destruct Hnone as [-> | ->]; [done | by destruct lo].
Qed.

(** X23. A reading without a time, or a sun window that starts with
    [None], makes the filter raise [TypeError], once the days before are
    filtered. *)
Theorem daylight_filter_none_time tides rs pre dt r tide_data post acc lo w :
  tides = pre ++ (dt, r :: tide_data) :: post →
  daylight_filter pre (Some rs) = Ok acc →
  rs !! length pre = Some (lo :: w) →
  lo = None ∨ r.1.1 = None →
  daylight_filter tides (Some rs) = Raise TypeError.
Proof.
  intros -> Hpre Hw Hnone. unfold daylight_filter in *.
  rewrite filter_loop_app, Hpre, Nat.add_0_l.
  cbn [mbind result_bind filter_loop for_each].
  by rewrite (keep_reading_none rs _ dt acc r lo w Hw Hnone).
Qed.

Lemma filter_loop_no_windows items :
  ∀ k acc,
  Exists (λ it, it.2 ≠ []) items →
  filter_loop None items k acc = Raise (A:=list (date * list (reading height)))
                                   TypeError.
Proof.
  induction items as [|[dt td] items IH]; intros k acc Hex.
  - by apply Exists_nil in Hex.
  - cbn [filter_loop]. destruct td as [|[[t v] u] td].
    + simpl. apply IH. by apply Exists_cons in Hex as [?|?].
    + done.
Qed.

(** X24. Without sun windows ([get_rise_and_set] returned [None]) the
    filter raises [TypeError] as soon as a day has a reading, and
    returns the empty dictionary when no day has one. *)
Theorem daylight_filter_no_windows tides :
  (Exists (λ it, it.2 ≠ []) tides →
   daylight_filter tides None = Raise TypeError) ∧
  (Forall (λ it, it.2 = []) tides → daylight_filter tides None = Ok []).
Proof.
  split.
  - apply filter_loop_no_windows.
  - apply filter_loop_no_readings.
Qed.

End DaylightMore.

(** ** The table locator *)

Lemma find_Some nm cls n x :
  Soup.find nm cls n = Some x →
  Soup.selects nm cls x = true ∧ x ∈ Soup.descendants n.
Proof.
  unfold Soup.find, Soup.find_all. intros Hhead.
  assert (In x (List.filter (Soup.selects nm cls) (Soup.descendants n)))
    as Hin.
  { destruct (List.filter _ _) as [|y l]; [done|].
    injection Hhead as ->. by left. }
  apply filter_In in Hin as [Hin Hsel]. split; [done|].
  by apply list_elem_of_In.
Qed.

Section TableLocatorFacts.
Context (fetch : string → option node).

(** X25. [get_table] asks for the page of the full slug first.  When
    that page has the table, the table is returned and the second page
    is not asked for; when it has none, the answer is that of the page
    of the city alone; when the first request raises, so does
    [get_table], without a second request. *)
Theorem get_table_fallback (location slug : string) :
  parse_location location = Ok slug →
  ∃ city,
    get_location_without_state location = Ok city ∧
    (∀ soup table,
       fetch (tides_url slug) = Some soup →
       Soup.find "table" (Some "tide-table__table") soup = Some table →
       get_table fetch location = Done (Some table)) ∧
    (∀ soup,
       fetch (tides_url slug) = Some soup →
       Soup.find "table" (Some "tide-table__table") soup = None →
       get_table fetch location = get_from_url fetch (tides_url city)) ∧
    (fetch (tides_url slug) = None →
     get_table fetch location = RequestException).
Proof.
  intros Hslug. pose proof (location_slugs location) as H.
  rewrite Hslug in H. destruct H as (city & state & Hcity & _).
  exists city. split; [done|]. unfold get_table, get_from_url.
  rewrite Hslug. repeat split.
  - intros soup table -> ->. done.
  - intros soup -> ->. by rewrite Hcity.
  - by intros ->.
Qed.

(** X26. The one exception of its own that [get_table] raises is the
    [ValueError] of a location without exactly one comma, and it raises
    it whatever the site answers. *)
Theorem get_table_value_error (location : string) :
  (str_count "," location ≠ 1 → get_table fetch location = Fails ValueError) ∧
  (∀ e, get_table fetch location = Fails e →
        e = ValueError ∧ str_count "," location ≠ 1).
Proof.
  pose proof (location_split_length location) as Hlen.
  pose proof (location_slugs location) as Hslugs.
  unfold get_table, get_from_url.
  unfold parse_location in *.
  destruct (PyStr.split "," (PyStr.strip location)) as [|c [|s [|? ?]]];
    simpl in Hlen.
  1,2,4: split; [done|]; intros e [= <-]; split; [done|lia].
  destruct Hslugs as (city & state & Hcity & _).
  split; [lia|]. intros e.
  destruct (fetch _) as [soup|]; [|done].
  destruct (Soup.find _ _ soup); [done|]. rewrite Hcity.
  by destruct (fetch _).
Qed.

(** X27. A table that [get_table] returns is a [table] tag with the
    class [tide-table__table], taken from one of the two pages. *)
Theorem get_table_is_table (location : string) (table : node) :
  get_table fetch location = Done (Some table) →
  Soup.name_is "table" table = true ∧
  Soup.has_class "tide-table__table" table = true ∧
  ∃ slug soup,
    (parse_location location = Ok slug ∨
     get_location_without_state location = Ok slug) ∧
    fetch (tides_url slug) = Some soup ∧
    table ∈ Soup.descendants soup.
Proof.
  unfold get_table, get_from_url.
  destruct (parse_location location) as [slug|] eqn:Hslug; [|done].
  destruct (fetch (tides_url slug)) as [soup|] eqn:Hsoup; [|done].
  destruct (Soup.find _ _ soup) as [t|] eqn:Hfind.
  - intros [= <-]. apply find_Some in Hfind as [Hsel Hin].
    apply andb_true_iff in Hsel as [? ?]. eauto 10.
  - destruct (get_location_without_state location) as [city|] eqn:Hcity;
      [|done].
    destruct (fetch (tides_url city)) as [soup2|] eqn:Hsoup2; [|done].
    intros [= Hfind2]. apply find_Some in Hfind2 as [Hsel Hin].
    apply andb_true_iff in Hsel as [? ?]. eauto 10.
Qed.

Context (strptime_time : string → option time).
Context {height : Type} (py_float : string → option height).
Context (fromisoformat : string → option date) (py_int : string → option Z).

(** X28. [extract_tides] for a location: with the table on the first
    page it is [extract_tides] of that table; with the table on neither
    page it raises [AttributeError]. *)
Theorem extract_tides_location_pages (location slug : string) (soup : node) :
  parse_location location = Ok slug →
  fetch (tides_url slug) = Some soup →
  (∀ table,
     Soup.find "table" (Some "tide-table__table") soup = Some table →
     extract_tides_location fetch strptime_time py_float fromisoformat py_int
       location =
     of_result
       (extract_tides strptime_time py_float fromisoformat py_int table)) ∧
  (∀ city soup2,
     Soup.find "table" (Some "tide-table__table") soup = None →
     get_location_without_state location = Ok city →
     fetch (tides_url city) = Some soup2 →
     Soup.find "table" (Some "tide-table__table") soup2 = None →
     extract_tides_location fetch strptime_time py_float fromisoformat py_int
       location = Fails AttributeError).
Proof.
  intros Hslug Hsoup. unfold extract_tides_location, get_table, get_from_url.
  rewrite Hslug, Hsoup. split.
  - by intros table ->.
  - intros city soup2 -> -> -> ->. done.
Qed.

End TableLocatorFacts.

(** ** The further properties on sample input *)

Lemma force_hour_two_digits_colons_sample :
  is_Ok (force_hour_two_digits " 6:30PM") ∧
  force_hour_two_digits "6:30:15PM" = Raise ValueError.
Proof.
  split.
  - apply (force_hour_two_digits_colons " 6:30PM"). reflexivity.
  - apply (force_hour_two_digits_colons "6:30:15PM"). simpl. lia.
Defined.

Lemma force_hour_two_digits_never_00_sample :
  ∃ hh right_part,
    "12:30AM" = hh +:+ ":" +:+ right_part ∧
    hh ≠ "00" ∧
    1 ≤ String.length hh ≤ 2 ∧
    PyStr.has_char ":" right_part = false.
Proof.
  apply (force_hour_two_digits_never_00 "00:30AM" "12:30AM"). reflexivity.
Defined.

Lemma force_hour_two_digits_one_digit_sample :
  force_hour_two_digits " 6:30PM " = Ok "06:30PM".
Proof.
  apply (force_hour_two_digits_one_digit [" "%char] "6" "30PM ").
  - repeat constructor.
  - reflexivity.
  - reflexivity.
Defined.

Lemma parse_time_str_never_raises_sample :
  parse_time_str Lib.strptime_time "noon" = Ok None ∧
  ∃ s, force_hour_two_digits " 6:30PM" = Ok s ∧
       Lib.strptime_time s = Some (Time 18 30 0 0).
Proof.
  split.
  - apply (parse_time_str_never_raises Lib.strptime_time "noon"). simpl. lia.
  - apply (parse_time_str_never_raises Lib.strptime_time " 6:30PM").
    reflexivity.
Defined.

Lemma parse_date_str_never_raises_sample :
  parse_date_str Lib.strptime_date (Date 2024 12 15) "01 January" = Ok None ∧
  valid_date (Date 2025 1 1) = true.
Proof.
  split.
  - apply (parse_date_str_never_raises Lib.strptime_date (Date 2024 12 15)
             "01 January").
    reflexivity.
  - apply (proj2 (proj2 (parse_date_str_never_raises Lib.strptime_date
                           (Date 2024 12 15) "Wed 01 January"))
             (Date 2025 1 1)).
    reflexivity.
Defined.

Lemma adjust_year_leap_day_sample :
  adjust_year (Date 2023 3 1) (Date 2024 2 29) = Raise ValueError ∧
  ∀ strptime_date date_str,
    strptime_date date_str = Some (Date 2024 2 29) →
    parse_date_str strptime_date (Date 2023 3 1) date_str = Ok None.
Proof.
  apply (adjust_year_leap_day (Date 2023 3 1) (Date 2024 2 29)); reflexivity.
Defined.

Lemma parse_location_commas_sample :
  (is_Ok (parse_location Cases.half_moon_bay) ∧
   is_Ok (get_location_without_state Cases.half_moon_bay)) ∧
  (parse_location "Half Moon Bay" = Raise ValueError ∧
   get_location_without_state "Half Moon Bay" = Raise ValueError).
Proof.
  split.
  - apply (parse_location_commas Cases.half_moon_bay). reflexivity.
  - apply (parse_location_commas "Half Moon Bay"). simpl. lia.
Defined.

Lemma parse_location_no_space_sample :
  PyStr.has_char " " "Half-Moon-Bay-California" = false ∧
  PyStr.has_char "," "Half-Moon-Bay-California" = false ∧
  PyStr.has_char " " (tides_url "Half-Moon-Bay-California") = false.
Proof.
  apply (parse_location_no_space Cases.half_moon_bay). left. reflexivity.
Defined.

Lemma has_tide_info_first_match_sample :
  has_tide_info Cases.bare_last_row "low" = Ok true ∧
  has_tide_info Cases.bare_first_row "low" = Raise KeyError ∧
  has_tide_info Sample.high_row "low" = Ok false.
Proof.
  split; [|split].
  - apply (proj1 (has_tide_info_first_match Cases.bare_last_row "low")
             [Sample.high_cell []] (Sample.low_cell []) [Cases.bare_cell]
             (AttrList ["tide-table__part"; "tide-table__part--low"]));
      try reflexivity.
    repeat constructor. eexists. split; reflexivity.
  - apply (proj1 (proj2 (has_tide_info_first_match Cases.bare_first_row "low"))
             [] Cases.bare_cell [Sample.low_cell []]);
      (reflexivity || constructor).
  - apply (proj1 (proj2 (proj2
             (has_tide_info_first_match Sample.high_row "low")))).
    repeat constructor. eexists. split; reflexivity.
Defined.

Lemma get_dates_from_table_headers_sample :
  length Sample.scenario_days =
    length (Soup.find_all "th" (Some "tide-table__day") Sample.scenario) ∧
  ∀ i th,
    Soup.find_all "th" (Some "tide-table__day") Sample.scenario !! i = Some th →
    ∃ s d c,
      Sample.scenario_days !! i = Some (d, c) ∧
      Soup.attr th "data-date" = Some (AttrStr s) ∧
      Lib.fromisoformat s = Some d ∧
      (Soup.attr th "colspan" = None → c = 0%Z) ∧
      (∀ cs, Soup.attr th "colspan" = Some (AttrStr cs) →
             Lib.py_int cs = Some c).
Proof.
  apply (get_dates_from_table_headers Lib.fromisoformat Lib.py_int
           Sample.scenario Sample.scenario_days).
  reflexivity.
Defined.

Lemma get_dates_from_table_first_error_sample :
  Sample.get_dates_from_table Cases.undated_table = Raise KeyError.
Proof.
  apply (get_dates_from_table_first_error Lib.fromisoformat Lib.py_int
           Cases.undated_table [Sample.day_header "2024-11-04" None]
           Cases.undated_header []).
  - reflexivity.
  - repeat constructor. eexists. reflexivity.
  - reflexivity.
Defined.

Lemma get_data_bad_height_sample :
  Sample.get_data Cases.bad_height_cell = Raise ValueError ∧
  Sample.get_data Cases.bad_height_second = Raise ValueError.
Proof.
  split.
  - eapply (proj1 (get_data_bad_height Lib.strptime_time Lib.py_float
                     Cases.bad_height_cell)); reflexivity.
  - eapply (proj2 (get_data_bad_height Lib.strptime_time Lib.py_float
                     Cases.bad_height_second)
              (Sample.group " 5:45AM" "1.2" "ft")
              (Sample.group " 6:10PM" "n/a" "ft")
              (Sample.group " 6:10PM" "n/a" "ft"));
      [reflexivity | by right | reflexivity | reflexivity].
Defined.

Lemma get_data_unparsed_time_sample :
  Sample.get_data Cases.no_colon_cell = Ok [(None, Sample.tenths 12, "ft")].
Proof.
  apply (get_data_unparsed_time Lib.strptime_time Lib.py_float
           Cases.no_colon_cell (Sample.group "noon" "1.2" "ft")
           (Sample.span "tide-table__value-low" "noon")
           (Sample.span "tide-table__height" "1.2")
           (Sample.span "tide-table__units" "ft") (Sample.tenths 12));
    [reflexivity..|].
  left. simpl. lia.
Defined.

Lemma get_tides_no_low_row_sample :
  (∀ days, Sample.get_tides Cases.high_only days = Ok None) ∧
  Sample.extract_tides Cases.high_only = Raise AttributeError.
Proof.
  assert (Forall (λ r, has_tide_info r "low" = Ok false)
            (Soup.find_all "tr" (Some "tide-table__separator") Cases.high_only))
    as Hrows by (repeat constructor).
  split.
  - apply (get_tides_no_low_row Lib.strptime_time Lib.py_float
             Cases.high_only Hrows).
  - eapply (proj2 (get_tides_no_low_row Lib.strptime_time Lib.py_float
                     Cases.high_only Hrows)); reflexivity.
Defined.

Lemma get_tides_cells_run_out_sample :
  Sample.get_tides Sample.wide_row Sample.scenario_days = Raise IndexError.
Proof.
  apply (get_tides_cells_run_out Lib.strptime_time Lib.py_float
           Sample.wide_row Sample.scenario_days
           [(Sample.nov4, 0%Z)] Sample.nov5 2%Z []
           [] Sample.two_cell_row []).
  - reflexivity.
  - constructor.
  - reflexivity.
  - reflexivity.
  - vm_compute. lia.
  - repeat constructor; eexists; reflexivity.
Defined.

Lemma get_tides_key_order_sample :
  ∃ tides,
    Sample.get_tides Cases.gap_table Cases.gap_days = Ok (Some tides) ∧
    tides.*1 = [Sample.nov4; Cases.nov6].
Proof.
  apply (get_tides_key_order Lib.strptime_time Lib.py_float
           Cases.gap_table Cases.gap_days Cases.gap_days []
           [] Cases.gap_row []).
  - reflexivity.
  - constructor.
  - reflexivity.
  - reflexivity.
  - apply (bool_decide_unpack (NoDup [Sample.nov4; Sample.nov5; Cases.nov6])).
    vm_compute. exact I.
  - reflexivity.
  - repeat constructor; eexists; reflexivity.
Defined.

Lemma get_tides_cell_error_sample :
  Sample.get_tides Cases.bad_cell_table Sample.scenario_days = Raise ValueError.
Proof.
  apply (get_tides_cell_error Lib.strptime_time Lib.py_float
           Cases.bad_cell_table Sample.scenario_days
           [(Sample.nov4, 0%Z)] Sample.nov5 2%Z []
           [] Cases.bad_cell_row []
           [Sample.low_cell [Sample.group " 5:45AM" "1.2" "ft"]]
           Cases.bad_height_cell []).
  - reflexivity.
  - constructor.
  - reflexivity.
  - reflexivity.
  - repeat constructor; eexists; reflexivity.
  - reflexivity.
  - reflexivity.
  - vm_compute. lia.
Defined.

Lemma sun_row_skips_sample :
  sun_row Lib.strptime_time
    [Sample.sun_cell1 "sunrise"; Sample.sun_cell1 " 6:00AM";
     Sample.sun_cell1 " 5:30PM"] =
  sun_row Lib.strptime_time
    [Sample.sun_cell1 " 6:00AM"; Sample.sun_cell1 " 5:30PM"].
Proof.
  apply (sun_row_skips Lib.strptime_time
           [Sample.sun_cell1 " 6:00AM"; Sample.sun_cell1 " 5:30PM"]).
  reflexivity.
Defined.

Lemma get_rise_and_set_no_div_sample :
  Sample.get_rise_and_set Cases.flat_sun_table = Raise AttributeError.
Proof.
  apply (get_rise_and_set_no_div Lib.strptime_time Cases.flat_sun_table
           [Sample.header_row] Cases.flat_sun_row []
           [Cases.blank_sun_cell] Cases.flat_sun_cell []).
  - reflexivity.
  - repeat constructor.
  - reflexivity.
  - repeat constructor.
  - discriminate.
  - reflexivity.
Defined.

Lemma get_rise_and_set_sunrise_only_sample :
  Sample.get_rise_and_set Cases.sunrise_only_table = Ok (Some []).
Proof.
  apply (get_rise_and_set_sunrise_only Lib.strptime_time
           Cases.sunrise_only_table
           [Sample.header_row] Cases.sunrise_only_row []
           (Sample.sun_cell1 " 6:00AM")).
  - reflexivity.
  - repeat constructor.
  - reflexivity.
  - eexists. reflexivity.
Defined.

Lemma daylight_filter_sublist_sample :
  (∀ dt, sublist
           (getitem [(Sample.nov4, [(Sample.at_ 12 0, Sample.tenths 8, "ft")]);
                     (Sample.nov5, [(Sample.at_ 6 30, Sample.tenths 10, "ft")])]
                    dt)
           (getitem Sample.scenario_tides dt)) ∧
  sublist [Sample.nov4; Sample.nov5] Sample.scenario_tides.*1 ∧
  Forall (λ it : date * list (reading Q), it.2 ≠ [])
    [(Sample.nov4, [(Sample.at_ 12 0, Sample.tenths 8, "ft")]);
     (Sample.nov5, [(Sample.at_ 6 30, Sample.tenths 10, "ft")])].
Proof.
  apply (daylight_filter_sublist Sample.scenario_tides
           (Some Sample.scenario_windows)).
  - apply (bool_decide_unpack (NoDup [Sample.nov4; Sample.nov5])).
    vm_compute. exact I.
  - reflexivity.
Defined.

Lemma daylight_filter_none_time_sample :
  daylight_filter Cases.untimed_tides (Some Sample.scenario_windows) =
    Raise TypeError.
Proof.
  apply (daylight_filter_none_time Cases.untimed_tides
           Sample.scenario_windows
           [(Sample.nov4, [(Sample.at_ 12 0, Sample.tenths 8, "ft")])]
           Sample.nov5 Cases.untimed [] []
           [(Sample.nov4, [(Sample.at_ 12 0, Sample.tenths 8, "ft")])]
           (Sample.at_ 6 1) [Sample.at_ 17 29]).
  - reflexivity.
  - reflexivity.
  - reflexivity.
  - right. reflexivity.
Defined.

Lemma daylight_filter_no_windows_sample :
  daylight_filter Sample.scenario_tides None = Raise TypeError ∧
  daylight_filter [(Sample.nov4, []); (Sample.nov5, [])] None =
    Ok ([] : list (date * list (reading Q))).
Proof.
  split.
  - apply (daylight_filter_no_windows Sample.scenario_tides).
    left. discriminate.
  - apply (daylight_filter_no_windows [(Sample.nov4, []); (Sample.nov5, [])]).
    repeat constructor.
Defined.

Lemma get_table_fallback_sample :
  ∃ city,
    get_location_without_state Cases.half_moon_bay = Ok city ∧
    get_table Cases.city_only_site Cases.half_moon_bay =
      get_from_url Cases.city_only_site (tides_url city) ∧
    get_table Cases.one_answer_site "Nowhere, Land" = RequestException.
Proof.
  destruct (get_table_fallback Cases.city_only_site Cases.half_moon_bay
              "Half-Moon-Bay-California" eq_refl)
    as (city & Hcity & _ & Hfall & _).
  exists city. split; [exact Hcity|]. split.
  - apply (Hfall (Cases.page [])); reflexivity.
  - destruct (get_table_fallback Cases.one_answer_site "Nowhere, Land"
                "Nowhere-Land" eq_refl) as (_ & _ & _ & _ & Hraise).
    apply Hraise. reflexivity.
Defined.

Lemma get_table_value_error_sample :
  get_table Cases.city_only_site "Half Moon Bay" = Fails ValueError.
Proof.
  apply (get_table_value_error Cases.city_only_site "Half Moon Bay").
  simpl. lia.
Defined.

Lemma get_table_is_table_sample :
  Soup.name_is "table" Sample.scenario = true ∧
  Soup.has_class "tide-table__table" Sample.scenario = true ∧
  ∃ slug soup,
    (parse_location Cases.half_moon_bay = Ok slug ∨
     get_location_without_state Cases.half_moon_bay = Ok slug) ∧
    Cases.city_only_site (tides_url slug) = Some soup ∧
    Sample.scenario ∈ Soup.descendants soup.
Proof.
  apply (get_table_is_table Cases.city_only_site Cases.half_moon_bay).
  reflexivity.
Defined.

Lemma extract_tides_location_pages_sample :
  extract_tides_location Cases.empty_site Lib.strptime_time Lib.py_float
    Lib.fromisoformat Lib.py_int Cases.half_moon_bay = Fails AttributeError.
Proof.
  eapply (proj2 (extract_tides_location_pages Cases.empty_site
                   Lib.strptime_time Lib.py_float Lib.fromisoformat Lib.py_int
                   Cases.half_moon_bay "Half-Moon-Bay-California"
                   (Cases.page []) eq_refl eq_refl));
    reflexivity.
Defined.
